(** * cs_tools: metadata middleware, search middleware and live task board

    A shallow embedding of
      - [cs_tools/api/middlewares/metadata.py]  (MetadataMiddleware),
      - [cs_tools/middlewares/search.py]        (SearchMiddlware),
      - [cs_tools/cli/layout.py]                (WorkTask),
    together with the properties the specification states about them.

    Conventions of the embedding:
      - a JSON object whose keys matter (a header record) is a
        [gmap string pyval]; the envelope of a response, whose shape the
        code takes for granted, is a record;
      - a raised exception is the [Raise] branch of [result];
      - the HTTP requests a call issues are returned as a log, in the order
        in which they are sent;
      - a [while True] loop runs on fuel: [None] means the fuel ran out. *)

From Stdlib Require Import ZArith String List Lia.
From stdpp Require Import base option list gmap strings.

Local Open Scope string_scope.
Local Open Scope list_scope.

(** ** Python values, dictionaries and exceptions *)

Module Py.

(** The scalar JSON values a header field can hold: [null], a number (a
    JSON boolean is the number 0 or 1, as [bool] is for Python's [==] and
    [hash]) or a string. *)
Inductive pyval : Type :=
| PNone
| PNum (z : Z)
| PStr (s : string).

#[global] Instance pyval_eq_dec : EqDecision pyval.
Proof. solve_decision. Defined.

Definition pyval_encode (v : pyval) : unit + (Z + string) :=
  match v with
  | PNone => inl tt
  | PNum z => inr (inl z)
  | PStr s => inr (inr s)
  end.

Definition pyval_decode (x : unit + (Z + string)) : pyval :=
  match x with
  | inl _ => PNone
  | inr (inl z) => PNum z
  | inr (inr s) => PStr s
  end.

#[global] Instance pyval_countable : Countable pyval.
Proof.
  refine (inj_countable' pyval_encode pyval_decode _).
  intros v. destruct v; reflexivity.
Defined.

(** A header record, and every record the middleware builds from one. *)
Abbreviation dict := (gmap string pyval).

(** What [ContentDoesNotExist(type=...)] is given: [all] hands over the
    (empty) content list, [search] the name of the metadata type. *)
Inductive errtype : Type :=
| ErrRecords (content : list dict)
| ErrName (name : string).

Inductive exn : Type :=
| KeyError (key : string)
| IndexError
| AttributeError (attr : string)
| TypeError (msg : string)
| ContentDoesNotExist (type : errtype) (name : option pyval) (reason : option string)
| AmbiguousContentError (name : pyval) (type : string).

Inductive result (A : Type) : Type :=
| Return (a : A)
| Raise (e : exn).
Arguments Return {A} a.
Arguments Raise {A} e.

Definition bind {A B : Type} (c : result A) (k : A -> result B) : result B :=
  match c with
  | Return a => k a
  | Raise e => Raise e
  end.

(** [d[key]] *)
Definition getitem (d : dict) (key : string) : result pyval :=
  match d !! key with
  | Some v => Return v
  | None => Raise (KeyError key)
  end.

(** [d.get(key)], on a dictionary keyed by values *)
Definition dict_get (d : gmap pyval pyval) (key : pyval) : pyval :=
  default PNone (d !! key).

(** [{**extra, **d}]: the later unpacking wins on a shared key. *)
Definition merge_over (extra d : dict) : dict := d ∪ extra.

(** [sep.join(l)] *)
Fixpoint join (sep : string) (l : list string) : string :=
  match l with
  | [] => ""
  | [s] => s
  | s :: rest => s +:+ sep +:+ join sep rest
  end.


End Py.
Import Py.

Notation "'let!' x ':=' c 'in' k" := (Py.bind c (fun x => k))
  (at level 10, x pattern, c at level 100, k at level 200).

(** ** cs_tools.util *)

Module Util.

(** Modelled from the spec: [cs_tools.util.chunks] is imported by the
    middleware but defined outside the files at hand.  The specification
    has the ids "partitioned into fixed-size chunks": consecutive slices
    of [n] elements, the last one possibly shorter.  [fuel] bounds the
    number of slices. *)
Fixpoint chunks_aux {A : Type} (fuel : nat) (l : list A) (n : nat) : list (list A) :=
  match fuel with
  | O => []
  | S fuel' =>
      match l with
      | [] => []
      | _ :: _ => take n l :: chunks_aux fuel' (drop n l) n
      end
  end.

Definition chunks {A : Type} (l : list A) (n : nat) : list (list A) :=
  chunks_aux (length l) l n.

End Util.

(** ** cs_tools.api.middlewares.metadata *)

Module Metadata.
Import Util.

Abbreviation GUID := string.

(** A member of one of the enumerations of [cs_tools.data.enums], which
    are declared outside the files at hand: a member is known here by its
    [.value]. *)
Record Enum : Type := { value : string }.

Abbreviation MetadataCategory := Enum.
Abbreviation PermissionType := Enum.
Abbreviation MetadataObject := Enum.

(** The members of the enumerations the middleware iterates over or
    compares with. *)
Record Enums : Type := {
  DownloadableContent : list Enum;
  logical_table : Enum;
  MetadataObjectSubtype : list Enum
}.

(** The keyword arguments of [_metadata.list]; [None] for one left out. *)
Record ListRequest : Type := {
  type : option string;
  category : option MetadataCategory;
  tagname : option (list string);
  batchsize : option Z;
  offset : option nat;
  fetchids : option (list GUID);
  pattern : option pyval;
  sort : option string;
  sortascending : option bool
}.

(** [r.json()] of [_metadata.list]: the header records, the last-batch
    flag, and [other_keys] further top-level keys of the JSON object. *)
Record ListPage : Type := {
  headers : list dict;
  isLastBatch : bool;
  other_keys : nat
}.

(** [len(data)] of a page: the number of keys of the JSON object. *)
Definition len_data (data : ListPage) : nat := 2 + other_keys data.

Record ColumnHeader : Type := { id : GUID }.
(** One element of [r.json()['storables']['columns']]. *)
Record Column : Type := { header : ColumnHeader }.

Record Permission : Type := { topLevelObjectId : pyval; shareMode : pyval }.
(** One value of [r.json()] of [security.metadata_permissions]:
    [data['permissions'].items()], in order. *)
Record PermissionData : Type := { permissions_items : list (GUID * Permission) }.

(** The requests the middleware sends. *)
Inductive request : Type :=
| MetadataList (req : ListRequest)
| MetadataDetails (ids : list GUID) (showhidden : bool)
| SecurityMetadataPermissions (type : string) (ids : list GUID) (permissiontype : string)
| DependencyListDependents (ids : list GUID) (type : string)
| SearchData (query_string : string) (data_source_guid : pyval) (formattype : string).

(** The remote platform, as the answers it gives: each field is the
    decoded body ([r.json()]) of one endpoint, a function of the request's
    arguments.  [user_all] is what [ts.user.all()] returns. *)
Record ThoughtSpot : Type := {
  metadata_list : ListRequest -> ListPage;
  metadata_details : list GUID -> bool -> list Column;
  metadata_permissions : string -> list GUID -> string -> list (GUID * PermissionData);
  list_dependents : list GUID -> string -> list (GUID * list (string * list dict));
  searchdata : string -> pyval -> string -> list dict;
  user_all : list dict
}.

(** [for x in l: s = body(s, x)], stopping at the first exception. *)
Fixpoint for_each {S A : Type} (body : S -> A -> result S) (l : list A) (s : S) : result S :=
  match l with
  | [] => Return s
  | x :: l' => let! s' := body s x in for_each body l' s'
  end.

(** *** [MetadataMiddleware.all] *)

(** [tags: Union[str, List[str]] = None], after
    [if isinstance(tags, str): tags = [tags]]. *)
Definition normalise_tags (tags : option (string + list string)) : option (list string) :=
  match tags with
  | None => None
  | Some (inl s) => Some [s]
  | Some (inr l) => Some l
  end.

(** The body of [for d in data['headers']]. *)
Definition enrich (type_ : string) (st : gmap pyval pyval * list dict) (d : dict)
  : result (gmap pyval pyval * list dict) :=
  let '(track_guids, to_extend) := st in
  let! name := getitem d "name" in
  let! id := getitem d "id" in
  let track_guids := <[id := name]> track_guids in
  let! context :=
    (if String.eqb type_ "LOGICAL_COLUMN"
     then let! owner := getitem d "owner" in Return (dict_get track_guids owner)
     else Return PNone) in
  Return (track_guids,
          to_extend ++ [merge_over {[ "type" := PStr type_; "context" := context ]} d]).

(** [v not in ('system', 'tsadmin')] *)
Definition not_system (v : pyval) : bool :=
  negb (bool_decide (v = PStr "system") || bool_decide (v = PStr "tsadmin")).

(** [[answer for answer in to_extend
      if answer['authorName'] not in ('system', 'tsadmin')]] *)
Fixpoint exclude_system (to_extend : list dict) : result (list dict) :=
  match to_extend with
  | [] => Return []
  | answer :: rest =>
      let! author := getitem answer "authorName" in
      let! kept := exclude_system rest in
      Return (if not_system author then answer :: kept else kept)
  end.

(** [if exclude_system_content: to_extend = [...]] *)
Definition filter_page (exclude_system_content : bool) (to_extend : list dict)
  : result (list dict) :=
  if exclude_system_content then exclude_system to_extend else Return to_extend.

(** The variables the loops of [all] update: the requests sent so far,
    [track_guids] and [content]. *)
Record run : Type := {
  log : list request;
  track_guids : gmap pyval pyval;
  content : list dict
}.

Section all.
Variable ts : ThoughtSpot.
Variable tags : option (list string).
Variable category_ : MetadataCategory.
Variable exclude_system_content : bool.
Variable chunksize : Z.

Definition list_request (type_ : string) (offset_ : nat) : ListRequest :=
  {| type := Some type_; category := Some category_; tagname := tags;
     batchsize := Some chunksize; offset := Some offset_;
     fetchids := None; pattern := None; sort := None; sortascending := None |}.

(** One pass through the body of [while True], up to the test of
    [data['isLastBatch']]: the new offset, the new state and the flag. *)
Definition page_body (type_ : string) (offset_ : nat) (st : run)
  : result (nat * run * bool) :=
  let data := metadata_list ts (list_request type_ offset_) in
  let log' := log st ++ [MetadataList (list_request type_ offset_)] in
  let! (track', to_extend) :=
    for_each (enrich type_) (headers data) (track_guids st, []) in
  let offset' := offset_ + length to_extend in
  let! to_extend' := filter_page exclude_system_content to_extend in
  Return (offset',
          {| log := log'; track_guids := track'; content := content st ++ to_extend' |},
          isLastBatch data).

(** [while True: ...] for one [type_], from [offset_]. *)
Fixpoint page_loop (fuel : nat) (type_ : string) (offset_ : nat) (st : run)
  : option (result run) :=
  match fuel with
  | O => None
  | S fuel' =>
      match page_body type_ offset_ st with
      | Raise e => Some (Raise e)
      | Return (offset', st', last) =>
          if last then Some (Return st') else page_loop fuel' type_ offset' st'
      end
  end.

(** [for type_ in types: offset = 0; while True: ...] *)
Fixpoint types_loop (fuel : nat) (types : list string) (st : run) : option (result run) :=
  match types with
  | [] => Some (Return st)
  | type_ :: types' =>
      match page_loop fuel type_ 0 st with
      | None => None
      | Some (Raise e) => Some (Raise e)
      | Some (Return st') => types_loop fuel types' st'
      end
  end.

(** The reason of the [ContentDoesNotExist] raised on empty content. *)
Definition rzn : string :=
  ("'" +:+ value category_ +:+ "' category (")
  +:+ (if exclude_system_content then "excluding " else "including ")
  +:+ "admin-generated content)"
  +:+ (match tags with
       | None => ""
       | Some l => " and tags: " +:+ join ", " l
       end).
End all.

Definition all_types (include_columns : bool) : list string :=
  ["PINBOARD_ANSWER_BOOK"; "QUESTION_ANSWER_BOOK"; "LOGICAL_TABLE"]
  ++ (if include_columns then ["LOGICAL_COLUMN"] else []).

Definition empty_run : run := {| log := []; track_guids := ∅; content := [] |}.

(** The loops of [all], before the check for empty content. *)
Definition all_drain (fuel : nat) (ts : ThoughtSpot) (include_columns : bool)
    (tags : option (string + list string)) (category_ : MetadataCategory)
    (exclude_system_content : bool) (chunksize : Z) : option (result run) :=
  types_loop ts (normalise_tags tags) category_ exclude_system_content chunksize
    fuel (all_types include_columns) empty_run.

(** [MetadataMiddleware.all]: the content, and the requests sent. *)
Definition all (fuel : nat) (ts : ThoughtSpot) (include_columns : bool)
    (tags : option (string + list string)) (category_ : MetadataCategory)
    (exclude_system_content : bool) (chunksize : Z)
  : option (result (list request * list dict)) :=
  match all_drain fuel ts include_columns tags category_ exclude_system_content chunksize with
  | None => None
  | Some (Raise e) => Some (Raise e)
  | Some (Return st) =>
      match content st with
      | [] =>
          Some (Raise (ContentDoesNotExist (ErrRecords (content st)) None
                         (Some (rzn (normalise_tags tags) category_ exclude_system_content))))
      | _ :: _ => Some (Return (log st, content st))
      end
  end.

(** *** [MetadataMiddleware.columns] *)

(** The request inside the loop is given [guids], the whole list; the
    loop variable [chunk] is not used. *)
Definition columns (ts : ThoughtSpot) (guids : list GUID) (include_hidden : bool)
    (chunksize : nat) : list request * list Column :=
  fold_left
    (fun '(log, columns) (chunk : list GUID) =>
       let r := metadata_details ts guids include_hidden in
       (log ++ [MetadataDetails guids include_hidden], columns ++ r))
    (chunks guids chunksize) ([], []).

(** *** [MetadataMiddleware.permissions] *)

Definition types : list (string * string) :=
  [ ("FORMULA", "LOGICAL_COLUMN");
    ("CALENDAR_TABLE", "LOGICAL_COLUMN");
    ("LOGICAL_COLUMN", "LOGICAL_COLUMN");
    ("QUESTION_ANSWER_BOOK", "QUESTION_ANSWER_BOOK");
    ("PINBOARD_ANSWER_BOOK", "PINBOARD_ANSWER_BOOK");
    ("ONE_TO_ONE_LOGICAL", "LOGICAL_TABLE");
    ("USER_DEFINED", "LOGICAL_TABLE");
    ("WORKSHEET", "LOGICAL_TABLE");
    ("AGGR_WORKSHEET", "LOGICAL_TABLE");
    ("MATERIALIZED_VIEW", "LOGICAL_TABLE");
    ("SQL_VIEW", "LOGICAL_TABLE");
    ("LOGICAL_TABLE", "LOGICAL_TABLE") ].

(** [types[key]] *)
Definition types_getitem (key : string) : result string :=
  match List.find (fun kv => String.eqb (fst kv) key) types with
  | Some kv => Return (snd kv)
  | None => Raise (KeyError key)
  end.

(** The record built for one grant of one object. *)
Definition sharing_row (permission_type : PermissionType) (user_guids : list pyval)
    (shared_to_principal_guid : GUID) (permission : Permission) : dict :=
  let d : dict :=
    {[ "object_guid" := topLevelObjectId permission;
       "permission_type" := PStr (value permission_type);
       "share_mode" := shareMode permission ]} in
  if bool_decide (PStr shared_to_principal_guid ∈ user_guids)
  then <[ "shared_to_user_guid" := PStr shared_to_principal_guid ]> d
  else <[ "shared_to_group_guid" := PStr shared_to_principal_guid ]> d.

(** The records built from one response, in the order of the response. *)
Definition sharing_rows (permission_type : PermissionType) (user_guids : list pyval)
    (r : list (GUID * PermissionData)) : list dict :=
  flat_map
    (fun '(_, data) =>
       map (fun '(principal, permission) =>
              sharing_row permission_type user_guids principal permission)
           (permissions_items data))
    r.

Definition permissions (ts : ThoughtSpot) (guids : list GUID) (type_ : MetadataObject)
    (permission_type : PermissionType) (chunksize : nat)
  : result (list request * list dict) :=
  let! user_guids :=
    for_each (fun acc user => let! i := getitem user "id" in Return (acc ++ [i]))
             (user_all ts) [] in
  for_each
    (fun '(log, sharing_access) (chunk : list GUID) =>
       let! t := types_getitem (value type_) in
       let r := metadata_permissions ts t chunk (value permission_type) in
       Return (log ++ [SecurityMetadataPermissions t chunk (value permission_type)],
               sharing_access ++ sharing_rows permission_type user_guids r))
    (chunks guids chunksize) ([], []).

(** *** [MetadataMiddleware.dependents] *)

(** The records built from one response, in the order of the response. *)
Definition dependent_rows (data : list (GUID * list (string * list dict))) : list dict :=
  flat_map
    (fun '(parent_guid, all_dependencies) =>
       flat_map
         (fun '(dependency_type, headers_) =>
            map (fun header_ =>
                   merge_over {[ "parent_guid" := PStr parent_guid;
                                 "type" := PStr dependency_type ]} header_)
                headers_)
         all_dependencies)
    data.

Definition dependents (ts : ThoughtSpot) (guids : list GUID) (for_columns include_columns : bool)
    (chunksize : nat) : list request * list dict :=
  let '(log0, guids, type_) :=
    if include_columns then
      let '(l, cols) := columns ts guids false 50 in
      (l, map (fun column => id (header column)) cols, "LOGICAL_COLUMN")
    else if for_columns then ([], guids, "LOGICAL_COLUMN")
    else ([], guids, "LOGICAL_TABLE") in
  fold_left
    (fun '(log, dependents) (chunk : list GUID) =>
       let data := list_dependents ts chunk type_ in
       (log ++ [DependencyListDependents chunk type_], dependents ++ dependent_rows data))
    (chunks guids chunksize) (log0, []).

(** *** [MetadataMiddleware.get_edoc_object_list] *)

Definition map_subtype_to_type (en : Enums) (subtype : pyval) : pyval :=
  if bool_decide (subtype ∈ map (fun t => PStr (value t)) (MetadataObjectSubtype en))
  then PStr (value (logical_table en))
  else subtype.

Section edoc.
Variable ts : ThoughtSpot.
Variable en : Enums.
Variable guids : list GUID.

Definition edoc_request (metadata_type : Enum) (offset_ : nat) : ListRequest :=
  {| type := Some (value metadata_type); category := None; tagname := None;
     batchsize := Some 500%Z; offset := Some offset_;
     fetchids := Some guids; pattern := None; sort := None; sortascending := None |}.

Definition edoc_final_request : ListRequest :=
  {| type := None; category := None; tagname := None; batchsize := None;
     offset := None; fetchids := Some guids; pattern := None; sort := None;
     sortascending := None |}.

(** The body of [for metadata in data['headers']]. *)
Definition edoc_map (metadata_type : Enum) (mapped_guids : list dict) (metadata : dict)
  : result (list dict) :=
  let! i := getitem metadata "id" in
  if String.eqb (value metadata_type) (value (logical_table en))
  then Return (mapped_guids ++
               [ {[ "id" := i;
                    "type" := map_subtype_to_type en (default PNone (metadata !! "type")) ]} ])
  else Return (mapped_guids ++ [ {[ "id" := i; "type" := PStr (value metadata_type) ]} ]).

(** [while True: ...] for one [metadata_type]; the offset moves on by
    [len(data)]. *)
Fixpoint edoc_page_loop (fuel : nat) (metadata_type : Enum) (offset_ : nat)
    (st : list request * list dict) : option (result (list request * list dict)) :=
  match fuel with
  | O => None
  | S fuel' =>
      let data := metadata_list ts (edoc_request metadata_type offset_) in
      let log' := fst st ++ [MetadataList (edoc_request metadata_type offset_)] in
      let offset' := offset_ + len_data data in
      match for_each (edoc_map metadata_type) (headers data) (snd st) with
      | Raise e => Some (Raise e)
      | Return mapped_guids =>
          if isLastBatch data then Some (Return (log', mapped_guids))
          else edoc_page_loop fuel' metadata_type offset' (log', mapped_guids)
      end
  end.

Fixpoint edoc_types_loop (fuel : nat) (members : list Enum) (st : list request * list dict)
  : option (result (list request * list dict)) :=
  match members with
  | [] => Some (Return st)
  | metadata_type :: members' =>
      match edoc_page_loop fuel metadata_type 0 st with
      | None => None
      | Some (Raise e) => Some (Raise e)
      | Some (Return (log', mapped_guids)) =>
          edoc_types_loop fuel members'
            (log' ++ [MetadataList edoc_final_request], mapped_guids)
      end
  end.

Definition get_edoc_object_list (fuel : nat) : option (result (list request * list dict)) :=
  match guids with
  | [] => Some (Return ([], []))
  | _ :: _ => edoc_types_loop fuel (DownloadableContent en) ([], [])
  end.
End edoc.

(** *** [MetadataMiddleware.get_object_ids_with_tags] *)

Section tagged.
Variable ts : ThoughtSpot.
Variable en : Enums.
Variable tags : list string.

Definition tags_request (metadata_type : Enum) (offset_ : nat) : ListRequest :=
  {| type := Some (value metadata_type); category := None; tagname := Some tags;
     batchsize := Some 500%Z; offset := Some offset_;
     fetchids := None; pattern := None; sort := None; sortascending := None |}.

(** The body of [for metadata in data['headers']]. *)
Definition tags_collect (object_ids : list pyval) (metadata : dict) : result (list pyval) :=
  let! i := getitem metadata "id" in Return (object_ids ++ [i]).

(** [while True: ...] for one [metadata_type]; as in
    [get_edoc_object_list], the offset moves on by [len(data)]. *)
Fixpoint tags_page_loop (fuel : nat) (metadata_type : Enum) (offset_ : nat)
    (st : list request * list pyval) : option (result (list request * list pyval)) :=
  match fuel with
  | O => None
  | S fuel' =>
      let data := metadata_list ts (tags_request metadata_type offset_) in
      let log' := fst st ++ [MetadataList (tags_request metadata_type offset_)] in
      let offset' := offset_ + len_data data in
      match for_each tags_collect (headers data) (snd st) with
      | Raise e => Some (Raise e)
      | Return object_ids =>
          if isLastBatch data then Some (Return (log', object_ids))
          else tags_page_loop fuel' metadata_type offset' (log', object_ids)
      end
  end.

Fixpoint tags_types_loop (fuel : nat) (members : list Enum) (st : list request * list pyval)
  : option (result (list request * list pyval)) :=
  match members with
  | [] => Some (Return st)
  | metadata_type :: members' =>
      match tags_page_loop fuel metadata_type 0 st with
      | None => None
      | Some (Raise e) => Some (Raise e)
      | Some (Return st') => tags_types_loop fuel members' st'
      end
  end.

(** [return list(set(object_ids))]: the ids without repeats, in an order
    of the set's own choosing. *)
Definition get_object_ids_with_tags (fuel : nat) : option (result (list request * list pyval)) :=
  match tags_types_loop fuel (DownloadableContent en) ([], []) with
  | None => None
  | Some (Raise e) => Some (Raise e)
  | Some (Return (log', object_ids)) =>
      Some (Return (log', elements (list_to_set object_ids : gset pyval)))
  end.
End tagged.

End Metadata.

(** ** cs_tools.middlewares.search *)

Module Search.
Import Metadata.

(** The keyword arguments [worksheet], [table] and [view] default to
    [None]. *)
Definition to_py (o : option string) : pyval :=
  match o with
  | None => PNone
  | Some s => PStr s
  end.

(** [bool(v)] *)
Definition truthy (v : pyval) : bool :=
  match v with
  | PNone => false
  | PNum z => negb (Z.eqb z 0)
  | PStr s => negb (String.eqb s "")
  end.

(** [a or b] *)
Definition py_or (a b : pyval) : pyval := if truthy a then a else b.

(** [t.count(None)] *)
Definition count_None (t : list pyval) : nat :=
  length (List.filter (fun v => bool_decide (v = PNone)) t).

Definition search_request (guid : pyval) : ListRequest :=
  {| type := Some "LOGICAL_TABLE"; category := None; tagname := None;
     batchsize := None; offset := None; fetchids := None;
     pattern := Some guid; sort := Some "CREATED"; sortascending := Some true |}.

Section search.
Variable ts : ThoughtSpot.
(** [str.casefold] of the Python runtime. *)
Variable casefold : string -> string.
(** [cs_tools.util.is_valid_guid], defined outside the files at hand. *)
Variable is_valid_guid : pyval -> bool.

(** [v.casefold()] *)
Definition casefold_of (v : pyval) : result string :=
  match v with
  | PStr s => Return (casefold s)
  | _ => Raise (AttributeError "casefold")
  end.

(** [[_ for _ in data['headers']
      if _['name'].casefold() == guid.casefold()]] *)
Fixpoint same_name (guid : pyval) (hs : list dict) : result (list dict) :=
  match hs with
  | [] => Return []
  | h :: rest =>
      let! n := getitem h "name" in
      let! a := casefold_of n in
      let! b := casefold_of guid in
      let! kept := same_name guid rest in
      Return (if String.eqb a b then h :: kept else kept)
  end.

(** The block under [if not util.is_valid_guid(guid)]: the request sent
    and the new value of [guid]. *)
Definition resolve_name (guid : pyval) : list request * result pyval :=
  let data := metadata_list ts (search_request guid) in
  ([MetadataList (search_request guid)],
   match headers data with
   | [] => Raise (ContentDoesNotExist (ErrName "LOGICAL_TABLE") (Some guid) None)
   | _ :: _ =>
       let! data' := same_name guid (headers data) in
       if Nat.ltb 1 (length data')
       then Raise (AmbiguousContentError guid "LOGICAL_TABLE")
       else match data' with
            | [] => Raise IndexError
            | h :: _ => getitem h "id"
            end
   end).

(** [SearchMiddlware.__call__] *)
Definition __call__ (query : string) (worksheet table view : option string)
  : list request * result (list dict) :=
  let args := [to_py worksheet; to_py table; to_py view] in
  if Nat.eqb (count_None args) 3 then
    ([], Raise (TypeError "ThoughtSpot.search() missing 1 of the required keyword-only arguments: 'worksheet', 'table', 'view'"))
  else if negb (Nat.eqb (count_None args) 2) then
    ([], Raise (TypeError "ThoughtSpot.search() got multiple values for one of the mutually-exclusive keyword-only arguments: 'worksheet', 'table', 'view'"))
  else
    let guid := py_or (py_or (to_py worksheet) (to_py table)) (to_py view) in
    let '(log, resolved) :=
      if is_valid_guid guid then ([], Return guid) else resolve_name guid in
    match resolved with
    | Raise e => (log, Raise e)
    | Return guid' =>
        (log ++ [SearchData query guid' "FULL"],
         Return (searchdata ts query guid' "FULL"))
    end.
End search.

End Search.

(** ** cs_tools.cli.layout *)

Module Layout.

(** A task of the board.  Clock readings ([dt.datetime.now()]) and
    durations are counted in microseconds, the resolution of [datetime];
    [_total_duration], which the source keeps in seconds, is kept here in
    the same unit.  [_live] is the display the task is bound to, known by
    the number of refreshes it has done; [status = None] is the cleared
    glyph. *)
Record WorkTask : Type := {
  name : string;
  description : string;
  status : option string;
  _live : option nat;
  _total_duration : Z;
  _started_at : option Z;
  _skipped : bool;
  _stopped : bool
}.

(** [WorkTask(name=..., description=..., _live=...)], with
    [__post_init__]. *)
Definition new_task (name_ description_ : string) (rich_live : option nat) : WorkTask :=
  {| name := name_; description := description_; status := Some ":popcorn:";
     _live := rich_live; _total_duration := 0; _started_at := None;
     _skipped := false; _stopped := false |}.

Definition started_at (t : WorkTask) : option Z := _started_at t.

(** [self._live.refresh()] *)
Definition live_refresh (t : WorkTask) : WorkTask * result unit :=
  match _live t with
  | None => (t, Raise (AttributeError "refresh"))
  | Some n =>
      ({| name := name t; description := description t; status := status t;
          _live := Some (S n); _total_duration := _total_duration t;
          _started_at := _started_at t; _skipped := _skipped t;
          _stopped := _stopped t |}, Return tt)
  end.

(** The property [duration], read when the clock shows [now]. *)
Definition duration (t : WorkTask) (now : Z) : result Z :=
  let delta := _total_duration t in
  if _stopped t then Return delta
  else match started_at t with
       | None => Raise (TypeError "unsupported operand type(s) for -: 'datetime.datetime' and 'NoneType'")
       | Some s => Return ((now - s) + delta)%Z
       end.

Definition skip (t : WorkTask) : WorkTask :=
  {| name := name t; description := description t; status := None;
     _live := _live t; _total_duration := _total_duration t;
     _started_at := _started_at t; _skipped := true; _stopped := _stopped t |}.

Definition bind_display (t : WorkTask) (rich_live : nat) : WorkTask :=
  {| name := name t; description := description t; status := status t;
     _live := Some rich_live; _total_duration := _total_duration t;
     _started_at := _started_at t; _skipped := _skipped t; _stopped := _stopped t |}.

Definition __enter__ (t : WorkTask) (now : Z) : WorkTask * result unit :=
  live_refresh
    {| name := name t; description := description t; status := Some ":fire:";
       _live := _live t; _total_duration := _total_duration t;
       _started_at := Some now; _skipped := _skipped t; _stopped := _stopped t |}.

(** [__exit__(exc_type, exc, trace)] at clock reading [now].  The value
    returned is [None]: [false] is its truth value, which is what the
    [with] statement looks at. *)
Definition __exit__ (t : WorkTask) (exc : option exn) (now : Z) : WorkTask * result bool :=
  let status' :=
    if _skipped t then status t
    else Some (match exc with
               | None => ":white_heavy_check_mark:"
               | Some _ => ":cross_mark:"
               end) in
  match _started_at t with
  | None =>
      ({| name := name t; description := description t; status := status';
          _live := _live t; _total_duration := _total_duration t;
          _started_at := _started_at t; _skipped := _skipped t;
          _stopped := _stopped t |},
       Raise (TypeError "unsupported operand type(s) for -: 'datetime.datetime' and 'NoneType'"))
  | Some s =>
      match live_refresh
              {| name := name t; description := description t; status := status';
                 _live := _live t; _total_duration := (_total_duration t + (now - s))%Z;
                 _started_at := _started_at t; _skipped := _skipped t;
                 _stopped := true |} with
      | (t', Raise e) => (t', Raise e)
      | (t', Return _) => (t', Return false)
      end
  end.

(** [with t: body], entered at clock reading [now_enter] and left at
    [now_exit].  [body] is the block: what it does to the task, and the
    exception it ends with, if any.  The exception is passed on to the
    caller unless [__exit__] returns a true value. *)
Definition with_task (t : WorkTask) (now_enter : Z)
    (body : WorkTask -> WorkTask * option exn) (now_exit : Z) : WorkTask * result unit :=
  match __enter__ t now_enter with
  | (t1, Raise e) => (t1, Raise e)
  | (t1, Return _) =>
      let '(t2, exc) := body t1 in
      match __exit__ t2 exc now_exit with
      | (t3, Raise e) => (t3, Raise e)
      | (t3, Return suppress) =>
          match exc with
          | Some e => if suppress then (t3, Return tt) else (t3, Raise e)
          | None => (t3, Return tt)
          end
      end
  end.

(** The property [values], read when the clock shows [now].  [strftime] is
    [started_at.strftime("%H:%M:%S")] and [format_seconds] the format
    [f"{...total_seconds(): >6.2f}"] of a duration, both of the Python
    runtime. *)
Section values.
Variable strftime : Z -> string.
Variable format_seconds : Z -> string.

Definition values (t : WorkTask) (now : Z)
  : result (option string * string * string * string) :=
  let started_at_ :=
    match started_at t with
    | None => ""
    | Some s => strftime s
    end in
  let! duration_ :=
    (match started_at t with
     | None => Return ""
     | Some _ => let! d := duration t now in Return (format_seconds d)
     end) in
  Return (status t, started_at_, duration_, description t).
End values.

(** *** [LiveTasks] *)

(** An element of the list given to [LiveTasks]: a task, or a pair of a
    name and a description. *)
Inductive work_item : Type :=
| Task (t : WorkTask)
| Pair (task_name description_ : string).

(** The setter of [work_items], on a board whose list is [_work_items]
    ([[]] on a board just made); [self_live] is the board, as the tasks made
    here are bound to it. *)
Definition set_work_items (self_live : nat) (_work_items : list WorkTask)
    (items : list work_item) : list WorkTask :=
  fold_left
    (fun acc item =>
       acc ++ [match item with
               | Pair task_name description_ =>
                   new_task task_name description_ (Some self_live)
               | Task t => t
               end])
    items _work_items.

(** [LiveTasks.__getitem__] *)
Fixpoint __getitem__ (work_items : list WorkTask) (task_name : string) : result WorkTask :=
  match work_items with
  | [] => Raise (KeyError ("no task found with name '" +:+ task_name +:+ "'"))
  | work_item_ :: rest =>
      if String.eqb (name work_item_) task_name then Return work_item_
      else __getitem__ rest task_name
  end.

End Layout.

(** ** cs_tools.cli.main *)

Module Main.

(** An entry of [TOOLS_DIR.iterdir()]. *)
Record PathEntry : Type := { path_name : string; is_dir : bool }.

Section tools.
(** What a tool mounts on the command line ([tool.app]). *)
Variable App : Type.

(** What [get_cs_tool] returns, as far as [_setup_tools] reads it. *)
Record Tool : Type := { tool_name : string; privacy : string; tool_app : App }.

(** [cs_tools.programmatic.get_cs_tool], defined outside the files at
    hand. *)
Variable get_cs_tool : string -> Tool.

(** [_setup_tools]: [ctx_settings["obj"].tools] at the end, and the calls
    of [tools_app.add_typer] (the app and the name given) in order. *)
Definition _setup_tools (paths : list PathEntry) : gmap string Tool * list (App * string) :=
  fold_left
    (fun '(tools, mounted) path =>
       if String.eqb (path_name path) "__pycache__" || negb (is_dir path)
       then (tools, mounted)
       else
         let tool := get_cs_tool (path_name path) in
         if String.eqb (privacy tool) "unknown" then (tools, mounted)
         else (<[tool_name tool := tool]> tools,
               mounted ++ [(tool_app tool, tool_name tool)]))
    paths (∅, []).
End tools.
Arguments tool_name {App} _.
Arguments privacy {App} _.
Arguments tool_app {App} _.

End Main.

(** ** dist.bootstrap._virtual_env *)

Module VirtualEnv.

(** A [pathlib.Path], by its parts. *)
Abbreviation Path := (list string).

(** [path / part] *)
Definition joinpath (path : Path) (part : string) : Path := path ++ [part].

(** A value that is a [str] or a [Path]; [==] between the two kinds is
    false. *)
Inductive pyobj : Type :=
| OStr (s : string)
| OPath (p : Path).

Definition py_eq (a b : pyobj) : bool :=
  match a, b with
  | OStr x, OStr y => bool_decide (x = y)
  | OPath p, OPath q => bool_decide (p = q)
  | _, _ => false
  end.

(** [x in t] for a tuple [t] *)
Definition py_in (x : pyobj) (t : list pyobj) : bool := existsb (py_eq x) t.

Inductive error : Type :=
| RuntimeError (msg : string)
| CSToolsActivatorError (return_code : Z) (log : string).

(** What the methods read of the process: [os.name], [os.environ],
    [_const.WINDOWS] (defined outside the files at hand), the parsing of a
    string into a [Path], [str] of a [Path], and [subprocess.run] as the
    return code and the decoded output of a command line. *)
Record System : Type := {
  os_name : string;
  environ : gmap string string;
  WINDOWS : bool;
  Path_of : string -> Path;
  str_of_path : Path -> string;
  sp_run : list string -> Z * string
}.

Section venv.
Variable sys : System.
(** [self._path] *)
Variable path : Path.

(** The property [shell]. *)
Definition shell : error + Path :=
  let shell_ :=
    if String.eqb (os_name sys) "posix" then environ sys !! "SHELL"
    else if String.eqb (os_name sys) "nt" then environ sys !! "COMSPEC"
    else None in
  match shell_ with
  | None => inl (RuntimeError "Unable to detect the current shell.")
  | Some sh =>
      if String.eqb sh "" then inl (RuntimeError "Unable to detect the current shell.")
      else inr (Path_of sys sh)
  end.

Definition bin_dir : Path := joinpath path (if WINDOWS sys then "Scripts" else "bin").

Definition exe : Path := joinpath bin_dir (if WINDOWS sys then "python.exe" else "python").

(** The static method [run]: the command line is [args]. *)
Definition run (args : list string) : error + (Z * string) :=
  let cp := sp_run sys args in
  if negb (Z.eqb (fst cp) 0) then inl (CSToolsActivatorError (fst cp) (snd cp))
  else inr cp.

Definition python (args : list string) : error + (Z * string) :=
  run (str_of_path sys exe :: args).

Definition pip (args : list string) : error + (Z * string) :=
  python (["-m"; "pip"; "--isolated"] ++ args).

Definition _get_source_command : error + string :=
  match shell with
  | inl e => inl e
  | inr sh =>
      if py_in (OPath sh) [OStr "fish"; OStr "csh"; OStr "tcsh"] then inr "source"
      else inr "."
  end.
End venv.

End VirtualEnv.

(** ** scripts.vendor_packages *)

Module Vendor.

(** The working directory of the process, with the directories that
    exist: [os.chdir] to one that does not exist raises and leaves the
    working directory as it is. *)
Inductive error (E : Type) : Type :=
| FileNotFoundError (dir : string)
| BodyError (e : E).
Arguments FileNotFoundError {E} dir.
Arguments BodyError {E} e.

Record _cd : Type := { to : string; from_ : string }.

(** [_cd(to)], made while the working directory is [cwd]; [expanduser] is
    [Path.expanduser] of the Python runtime. *)
Definition new_cd (expanduser : string -> string) (to_ : string) (cwd : string) : _cd :=
  {| to := expanduser to_; from_ := cwd |}.

Section cd.
Variable E : Type.
Variable is_directory : string -> bool.

(** [os.chdir(dir)] from the working directory [cwd] *)
Definition chdir (dir cwd : string) : string * option (error E) :=
  if is_directory dir then (dir, None) else (cwd, Some (FileNotFoundError dir)).

(** [with c: body], from the working directory [cwd]: the working
    directory afterwards, and the exception that leaves the statement, if
    any.  [body] is the block: the working directory it leaves and the
    exception it ends with.  [__exit__] returns [None], so the exception of
    the block is passed on. *)
Definition with_cd (c : _cd) (body : string -> string * option E) (cwd : string)
  : string * option (error E) :=
  match chdir (to c) cwd with
  | (cwd1, Some e) => (cwd1, Some e)
  | (cwd1, None) =>
      let '(cwd2, exc) := body cwd1 in
      match chdir (from_ c) cwd2 with
      | (cwd3, Some e) => (cwd3, Some e)
      | (cwd3, None) =>
          (cwd3, match exc with
                 | Some e => Some (BodyError e)
                 | None => None
                 end)
      end
  end.
End cd.

End Vendor.

(** ** Servers and tasks used as examples *)

Module Fixtures.
Import Metadata.

Definition category_all : MetadataCategory := {| value := "ALL" |}.

Definition empty_page : ListPage :=
  {| headers := []; isLastBatch := true; other_keys := 0 |}.

(** A platform with no content at all. *)
Definition empty_server : ThoughtSpot :=
  {| metadata_list := fun _ => empty_page;
     metadata_details := fun _ _ => [];
     metadata_permissions := fun _ _ _ => [];
     list_dependents := fun _ _ => [];
     searchdata := fun _ _ _ => [];
     user_all := [] |}.

Definition a_header (id_ name_ owner_ author_ : string) : dict :=
  {[ "id" := PStr id_; "name" := PStr name_; "owner" := PStr owner_;
     "authorName" := PStr author_ ]}.

(** One worksheet with two columns and a column of a table that is not
    listed; the worksheet header has a [type] of its own. *)
Definition sales : dict := <[ "type" := PStr "WORKSHEET" ]> (a_header "t1" "Sales" "t1" "alice").
Definition amount : dict := a_header "c1" "Amount" "t1" "alice".
Definition region : dict := a_header "c2" "Region" "t1" "tsadmin".
Definition orphan : dict := a_header "c3" "Orphan" "t9" "bob".

Definition sales_server : ThoughtSpot :=
  {| metadata_list := fun req =>
       if bool_decide (type req = Some "LOGICAL_TABLE") then
         {| headers := [sales]; isLastBatch := true; other_keys := 0 |}
       else if bool_decide (type req = Some "LOGICAL_COLUMN") then
         {| headers := [amount; region; orphan]; isLastBatch := true; other_keys := 0 |}
       else empty_page;
     metadata_details := fun _ _ => [];
     metadata_permissions := fun _ _ _ => [];
     list_dependents := fun _ _ => [];
     searchdata := fun _ _ _ => [];
     user_all := [] |}.

(** The requests of [all] on a platform that answers each type with one
    page, and what [all] returns on [sales_server] with the columns and
    without the exclusion. *)
Definition one_page_log : list request :=
  map (fun t => MetadataList (list_request None category_all 500 t 0)) (all_types true).

Definition sales_content : list dict :=
  [ merge_over {[ "type" := PStr "LOGICAL_TABLE"; "context" := PNone ]} sales;
    merge_over {[ "type" := PStr "LOGICAL_COLUMN"; "context" := PStr "Sales" ]} amount;
    merge_over {[ "type" := PStr "LOGICAL_COLUMN"; "context" := PStr "Sales" ]} region;
    merge_over {[ "type" := PStr "LOGICAL_COLUMN"; "context" := PNone ]} orphan ].

Definition sales_run : run :=
  {| log := one_page_log;
     track_guids := {[ PStr "t1" := PStr "Sales"; PStr "c1" := PStr "Amount";
                       PStr "c2" := PStr "Region"; PStr "c3" := PStr "Orphan" ]};
     content := sales_content |}.

(** A single column whose [owner] is its own id. *)
Definition loner : dict := a_header "c7" "Loner" "c7" "bob".

Definition loner_server : ThoughtSpot :=
  {| metadata_list := fun req =>
       if bool_decide (type req = Some "LOGICAL_COLUMN") then
         {| headers := [loner]; isLastBatch := true; other_keys := 0 |}
       else empty_page;
     metadata_details := fun _ _ => [];
     metadata_permissions := fun _ _ _ => [];
     list_dependents := fun _ _ => [];
     searchdata := fun _ _ _ => [];
     user_all := [] |}.

(** Four answers, served three to a page: the page at [offset] holds the
    records from [offset] on, and is the last one when it reaches the
    fourth. *)
Definition an_answer (id_ : string) : dict := a_header id_ "Answer" id_ "bob".
Definition four_answers : list dict :=
  [an_answer "a0"; an_answer "a1"; an_answer "a2"; an_answer "a3"].

Definition paging_server : ThoughtSpot :=
  {| metadata_list := fun req =>
       let o := default 0 (offset req) in
       {| headers := take 3 (drop o four_answers);
          isLastBatch := Nat.leb 4 (o + 3);
          other_keys := 0 |};
     metadata_details := fun _ _ => [];
     metadata_permissions := fun _ _ _ => [];
     list_dependents := fun _ _ => [];
     searchdata := fun _ _ _ => [];
     user_all := [] |}.

Definition answers_only : Enums :=
  {| DownloadableContent := [ {| value := "QUESTION_ANSWER_BOOK" |} ];
     logical_table := {| value := "LOGICAL_TABLE" |};
     MetadataObjectSubtype := [ {| value := "WORKSHEET" |} ] |}.

(** A platform whose listing by pattern returns the worksheet "Sales". *)
Definition sales_listing : ThoughtSpot :=
  {| metadata_list := fun _ => {| headers := [sales]; isLastBatch := true; other_keys := 0 |};
     metadata_details := fun _ _ => [];
     metadata_permissions := fun _ _ _ => [];
     list_dependents := fun _ _ => [];
     searchdata := fun _ _ _ => [];
     user_all := [] |}.

(** A task bound to a display, not yet started. *)
Definition pending : Layout.WorkTask := Layout.new_task "sync" "Synchronise the tables" (Some 0).

(** Two worksheets whose names differ by case only, and a listing that
    returns both. *)
Definition sales_upper : dict := a_header "t2" "SALES" "t2" "bob".

Definition two_sales_listing : ThoughtSpot :=
  {| metadata_list := fun _ =>
       {| headers := [sales; sales_upper]; isLastBatch := true; other_keys := 0 |};
     metadata_details := fun _ _ => [];
     metadata_permissions := fun _ _ _ => [];
     list_dependents := fun _ _ => [];
     searchdata := fun _ _ _ => [];
     user_all := [] |}.

(** Case folding of the letters of "Sales", enough for the examples. *)
Definition fold_sales (s : string) : string :=
  if String.eqb s "Sales" then "sales"
  else if String.eqb s "SALES" then "sales"
  else s.

(** A platform with two users, one of them the grantee "u1" of the one
    grant it reports for any object asked about; "g1" is no user. *)
Definition sharing_server : ThoughtSpot :=
  {| metadata_list := fun _ => empty_page;
     metadata_details := fun _ _ => [];
     metadata_permissions := fun _ ids _ =>
       map (fun i => (i, {| permissions_items :=
                              [("u1", {| topLevelObjectId := PStr i; shareMode := PStr "MODIFY" |});
                               ("g1", {| topLevelObjectId := PStr i;
                                         shareMode := PStr "READ_ONLY" |})] |}))
           ids;
     list_dependents := fun ids _ =>
       map (fun i => (i, [("QUESTION_ANSWER_BOOK",
                           [a_header "a1" "Answer" "a1" "bob";
                            <[ "type" := PStr "WORKSHEET" ]> (a_header "w1" "Sheet" "w1" "bob")])]))
           ids;
     searchdata := fun _ _ _ => [];
     user_all := [ {[ "id" := PStr "u1" ]}; {[ "id" := PStr "u2" ]} ] |}.

(** A task made without a display. *)
Definition unbound : Layout.WorkTask := Layout.new_task "load" "Load the data" None.

(** The directory of the tools: two tools, a cache directory, a file, and
    a directory that holds no tool that can be told. *)
Definition tools_dir : list Main.PathEntry :=
  [ {| Main.path_name := "archiver"; Main.is_dir := true |};
    {| Main.path_name := "__pycache__"; Main.is_dir := true |};
    {| Main.path_name := "README.md"; Main.is_dir := false |};
    {| Main.path_name := "scratch"; Main.is_dir := true |};
    {| Main.path_name := "searchable"; Main.is_dir := true |} ].

Definition a_tool (dir : string) : Main.Tool string :=
  {| Main.tool_name := dir;
     Main.privacy := if String.eqb dir "scratch" then "unknown" else "public";
     Main.tool_app := dir +:+ ".app" |}.

(** A process on a POSIX system whose shell is fish. *)
Definition fish_system : VirtualEnv.System :=
  {| VirtualEnv.os_name := "posix";
     VirtualEnv.environ := {[ "SHELL" := "fish" ]};
     VirtualEnv.WINDOWS := false;
     VirtualEnv.Path_of := fun s => [s];
     VirtualEnv.str_of_path := fun p => join "/" p;
     VirtualEnv.sp_run := fun _ => (0%Z, "") |}.

End Fixtures.

(** ** Notions the properties are stated with *)

Module Notions.
Import Metadata.

(** ceil(N/K) *)
Definition ceil_div (N K : nat) : nat := (N + K - 1) / K.

(** The author field of a record is one of the two reserved names. *)
Definition system_authored (r : dict) : Prop :=
  r !! "authorName" = Some (PStr "system") \/ r !! "authorName" = Some (PStr "tsadmin").

#[local] Instance system_authored_dec (r : dict) : Decision (system_authored r).
Proof. unfold system_authored. apply _. Defined.

(** Offsets in which each one is the one before plus the number of
    records fetched at the one before; [fetched_count o] is the number of
    records the platform returns for the page at [o]. *)
Fixpoint offsets_advance (fetched_count : nat -> nat) (o : nat) (os : list nat) : Prop :=
  match os with
  | [] => True
  | o' :: os' => o' = o + fetched_count o /\ offsets_advance fetched_count o' os'
  end.

(** The records the platform returned for the requests of a log, in the
    order of the requests, each with the type it was asked under. *)
Definition fetched (ts : ThoughtSpot) (l : list request) : list (string * dict) :=
  flat_map
    (fun r => match r with
              | MetadataList req =>
                  pair (default "" (type req)) <$> headers (metadata_list ts req)
              | _ => []
              end)
    l.

(** The record [all] builds from the header [d] fetched under the type
    [t], with [c] as the value looked up for its context. *)
Definition built (x : string * dict * pyval) : dict :=
  merge_over {[ "type" := PStr x.1.1; "context" := x.2 ]} x.1.2.

(** What the exclusion of system content keeps of a list of records. *)
Definition kept (exclude : bool) (l : list dict) : list dict :=
  if exclude then filter (fun r => ~ system_authored r) l else l.

(** [k] is the id of one of the records [seen]. *)
Definition id_among (seen : list (string * dict)) (k : pyval) : Prop :=
  exists t d, (t, d) ∈ seen /\ d !! "id" = Some k.

(** The context [c] of a record, given the records [seen] before it: a
    context that is not [None] is the lookup of the owner of a column,
    and the owner is the id of a record seen before or of the record
    itself; an owner that is neither gives [None]. *)
Definition context_ok (seen : list (string * dict)) (t : string) (d : dict) (c : pyval)
  : Prop :=
  (c <> PNone ->
   t = "LOGICAL_COLUMN"
   /\ exists owner, d !! "owner" = Some owner /\ id_among (seen ++ [(t, d)]) owner)
  /\ ((forall owner, d !! "owner" = Some owner -> ~ id_among (seen ++ [(t, d)]) owner) ->
      c = PNone).

Fixpoint all_ok (seen : list (string * dict)) (recs : list (string * dict * pyval)) : Prop :=
  match recs with
  | [] => True
  | x :: rest => context_ok seen x.1.1 x.1.2 x.2 /\ all_ok (seen ++ [x.1]) rest
  end.

(** The tracking table holds the ids of the records seen. *)
Definition tracks (track : gmap pyval pyval) (seen : list (string * dict)) : Prop :=
  forall k, is_Some (track !! k) <-> id_among seen k.

(** What holds of the variables of [all] between two requests. *)
Definition run_inv (ts : ThoughtSpot) (exclude : bool) (st : run) : Prop :=
  exists recs : list (string * dict * pyval),
    fst <$> recs = fetched ts (log st)
    /\ content st = kept exclude (built <$> recs)
    /\ tracks (track_guids st) (fetched ts (log st))
    /\ all_ok [] recs.

(** The header has a name, a string. *)
Definition named (h : dict) : Prop := exists n, h !! "name" = Some (PStr n).

(** The header has a name equal to [guid] up to case folding. *)
Definition name_matches (casefold : string -> string) (guid : string) (h : dict) : bool :=
  match h !! "name" with
  | Some (PStr n) => String.eqb (casefold n) (casefold guid)
  | _ => false
  end.

(** The request is a search of data. *)
Definition is_SearchData (r : request) : bool :=
  match r with
  | SearchData _ _ _ => true
  | _ => false
  end.

(** The name an element of the list given to a board goes by. *)
Definition item_name (item : Layout.work_item) : string :=
  match item with
  | Layout.Task t => Layout.name t
  | Layout.Pair task_name _ => task_name
  end.

(** The record [get_edoc_object_list] builds from the header [d] listed
    under the member [metadata_type]. *)
Definition edoc_record (en : Enums) (metadata_type : Enum) (d : dict) (i : pyval) : dict :=
  {[ "id" := i;
     "type" := if String.eqb (value metadata_type) (value (logical_table en))
               then map_subtype_to_type en (default PNone (d !! "type"))
               else PStr (value metadata_type) ]}.

(** The header has the fields the loop of [all] reads. *)
Definition well_formed (d : dict) : Prop :=
  is_Some (d !! "name") /\ is_Some (d !! "id") /\ is_Some (d !! "owner")
  /\ is_Some (d !! "authorName").

(** The listing whose page at offset [o] is [page_at o] ends within [n]
    pages from [o]: the pages met along the offsets [o], then each time the
    offset before plus the number of records of the page before, hold
    well-formed headers, and one of the first [n] is flagged as the last
    batch. *)
Fixpoint listing_ends (page_at : nat -> ListPage) (o n : nat) : Prop :=
  match n with
  | O => False
  | S n' =>
      Forall well_formed (headers (page_at o))
      /\ (isLastBatch (page_at o) = true
          \/ listing_ends page_at (o + length (headers (page_at o))) n')
  end.

(** The page of records the loop of [all] builds from the response to a
    request: one record for each header of the response, in order. *)
Definition page_of (ts : ThoughtSpot) (page : list dict) (r : request) : Prop :=
  exists req t,
    r = MetadataList req
    /\ type req = Some t
    /\ Forall2 (fun rec d => exists c, rec = built (t, d, c))
         page (headers (metadata_list ts req)).

End Notions.

(** * Properties *)

(** ** Chunked requests *)

Module ChunkedFacts.
Import Util Metadata Notions.

Lemma chunks_aux_length {A : Type} (n : nat) :
  0 < n ->
  forall (fuel : nat) (l : list A),
    length l <= fuel -> length (chunks_aux fuel l n) = ceil_div (length l) n.
Proof.
  intros Hn. unfold ceil_div.
  induction fuel as [|fuel IH]; intros l Hl.
  - destruct l; simpl in *; [|lia].
    symmetry. apply Nat.div_small. lia.
  - destruct l as [|x l]; simpl chunks_aux.
    + simpl. symmetry. apply Nat.div_small. lia.
    + cbn [length]. rewrite IH by (rewrite length_drop; simpl in *; lia).
      rewrite length_drop. cbn [length].
      destruct (le_lt_dec n (S (length l))) as [Hle|Hlt].
      * replace (S (length l) + n - 1) with ((S (length l) - n + n - 1) + 1 * n) by lia.
        rewrite Nat.div_add by lia. lia.
      * replace (S (length l) - n) with 0 by lia.
        rewrite (Nat.div_small (0 + n - 1) n) by lia.
        apply (Nat.div_unique _ _ 1 (S (length l) - 1)); lia.
Qed.

Lemma chunks_length {A : Type} (l : list A) (n : nat) :
  0 < n -> length (chunks l n) = ceil_div (length l) n.
Proof. intros Hn. unfold chunks. apply chunks_aux_length; lia. Qed.

Lemma chunks_aux_concat {A : Type} (n : nat) :
  0 < n ->
  forall (fuel : nat) (l : list A), length l <= fuel -> concat (chunks_aux fuel l n) = l.
Proof.
  intros Hn. induction fuel as [|fuel IH]; intros l Hl.
  - destruct l; simpl in *; [reflexivity|lia].
  - destruct l as [|x l]; [reflexivity|].
    cbn [chunks_aux concat].
    rewrite IH by (rewrite length_drop; simpl in *; lia).
    apply take_drop.
Qed.

Lemma chunks_concat {A : Type} (l : list A) (n : nat) :
  0 < n -> concat (chunks l n) = l.
Proof. intros Hn. unfold chunks. apply chunks_aux_concat; lia. Qed.

Lemma chunks_aux_size {A : Type} (n : nat) (fuel : nat) (l : list A) :
  0 < n -> Forall (fun c => 0 < length c <= n) (chunks_aux fuel l n).
Proof.
  intros Hn. revert l. induction fuel as [|fuel IH]; intros l; [constructor|].
  destruct l as [|x l]; [constructor|].
  cbn [chunks_aux]. constructor; [|apply IH].
  rewrite length_take. simpl. lia.
Qed.

(** A loop that sends one request per element and extends the result. *)
Lemma fold_left_log {A Q R : Type} (f : A -> Q) (g : A -> list R) (cs : list A) :
  forall (log0 : list Q) (acc0 : list R),
    fold_left (fun '(log, acc) c => (log ++ [f c], acc ++ g c)) cs (log0, acc0)
    = (log0 ++ map f cs, acc0 ++ flat_map g cs).
Proof.
  induction cs as [|c cs IH]; intros log0 acc0; simpl.
  - by rewrite !app_nil_r.
  - rewrite IH. by rewrite <- !app_assoc.
Qed.

(** [columns] sends one request per chunk, and each of them carries the
    whole of [guids]. *)
Lemma columns_eq (ts : ThoughtSpot) (guids : list GUID) (include_hidden : bool) (n : nat) :
  columns ts guids include_hidden n
  = (map (fun _ => MetadataDetails guids include_hidden) (chunks guids n),
     flat_map (fun _ => metadata_details ts guids include_hidden) (chunks guids n)).
Proof.
  unfold columns.
  rewrite (fold_left_log (fun _ => MetadataDetails guids include_hidden)
             (fun _ => metadata_details ts guids include_hidden)).
  reflexivity.
Qed.

Lemma columns_request_count (ts : ThoughtSpot) (guids : list GUID) (include_hidden : bool)
    (n : nat) :
  0 < n -> length (fst (columns ts guids include_hidden n)) = ceil_div (length guids) n.
Proof. intros Hn. rewrite columns_eq. simpl. rewrite length_map. by apply chunks_length. Qed.

(** [dependents] without [include_columns]: one request per chunk, with
    the ids of that chunk, and the rows of the responses in chunk order. *)
Lemma dependents_eq (ts : ThoughtSpot) (guids : list GUID) (for_columns : bool) (n : nat) :
  let type_ := if for_columns then "LOGICAL_COLUMN" else "LOGICAL_TABLE" in
  dependents ts guids for_columns false n
  = (map (fun chunk => DependencyListDependents chunk type_) (chunks guids n),
     flat_map (fun chunk => dependent_rows (list_dependents ts chunk type_)) (chunks guids n)).
Proof.
  unfold dependents. destruct for_columns; simpl;
    match goal with
    | |- context [DependencyListDependents _ ?t] =>
        rewrite (fold_left_log (fun chunk => DependencyListDependents chunk t)
                   (fun chunk => dependent_rows (list_dependents ts chunk t)))
    end; reflexivity.
Qed.

Lemma for_each_log {A Q R : Type} (f : A -> Q) (g : A -> list R) (cs : list A) :
  forall (log0 : list Q) (acc0 : list R),
    for_each (fun '(log, acc) c => Return (log ++ [f c], acc ++ g c)) cs (log0, acc0)
    = Return (log0 ++ map f cs, acc0 ++ flat_map g cs).
Proof.
  induction cs as [|c cs IH]; intros log0 acc0; simpl.
  - by rewrite !app_nil_r.
  - rewrite IH. by rewrite <- !app_assoc.
Qed.

(** [permissions], for a type of the table and users that all have an
    id: one request per chunk, with the ids of that chunk. *)
Lemma permissions_eq (ts : ThoughtSpot) (guids : list GUID) (type_ permission_type : Enum)
    (n : nat) (t : string) (user_guids : list pyval) :
  types_getitem (value type_) = Return t ->
  for_each (fun acc user => let! i := getitem user "id" in Return (acc ++ [i]))
    (user_all ts) [] = Return user_guids ->
  permissions ts guids type_ permission_type n
  = Return
      (map (fun chunk => SecurityMetadataPermissions t chunk (value permission_type))
         (chunks guids n),
       flat_map
         (fun chunk =>
            sharing_rows permission_type user_guids
              (metadata_permissions ts t chunk (value permission_type)))
         (chunks guids n)).
Proof.
  intros Ht Hu. unfold permissions. rewrite Hu. simpl. rewrite Ht. simpl.
  rewrite (for_each_log
             (fun chunk => SecurityMetadataPermissions t chunk (value permission_type))
             (fun chunk => sharing_rows permission_type user_guids
                             (metadata_permissions ts t chunk (value permission_type)))).
  reflexivity.
Qed.

(** C1 (at the input that shows the defect).  [columns] over the two ids
    [g1; g2] with chunk size 1 has the chunks [[g1]] and [[g2]], and sends
    two requests; each of the two carries both ids instead of the id of its
    own chunk, and the result holds the columns of both ids twice. *)
Theorem columns_requests_carry_every_id (ts : ThoughtSpot) :
  chunks ["g1"; "g2"] 1 = [["g1"]; ["g2"]]
  /\ columns ts ["g1"; "g2"] false 1
     = ([MetadataDetails ["g1"; "g2"] false; MetadataDetails ["g1"; "g2"] false],
        metadata_details ts ["g1"; "g2"] false ++ metadata_details ts ["g1"; "g2"] false).
Proof.
  split; [reflexivity|].
  rewrite columns_eq. simpl. by rewrite app_nil_r.
Qed.

(** The sibling loop of [dependents] at the same input: each request
    carries the id of its own chunk. *)
Example dependents_requests_carry_own_chunk (ts : ThoughtSpot) :
  fst (dependents ts ["g1"; "g2"] false false 1)
  = [DependencyListDependents ["g1"] "LOGICAL_TABLE";
     DependencyListDependents ["g2"] "LOGICAL_TABLE"].
Proof. reflexivity. Qed.

(** The chunked loop of [dependents] (without [include_columns]) over [N]
    ids with a chunk size [n > 0]: ceil(N/n) requests, the ids of the
    requests put end to end are the ids given, each request carries one
    chunk, and the rows are those of the responses in chunk order. *)
Theorem dependents_chunked (ts : ThoughtSpot) (guids : list GUID) (for_columns : bool)
    (n : nat) (Hn : 0 < n) :
  let type_ := if for_columns then "LOGICAL_COLUMN" else "LOGICAL_TABLE" in
  let sent := fst (dependents ts guids for_columns false n) in
  sent = map (fun chunk => DependencyListDependents chunk type_) (chunks guids n)
  /\ length sent = ceil_div (length guids) n
  /\ concat (chunks guids n) = guids
  /\ snd (dependents ts guids for_columns false n)
     = flat_map (fun chunk => dependent_rows (list_dependents ts chunk type_)) (chunks guids n).
Proof.
  intros type_ sent. subst sent type_. rewrite dependents_eq. simpl.
  split; [reflexivity|]. split; [rewrite length_map; by apply chunks_length|].
  split; [by apply chunks_concat|reflexivity].
Qed.

Lemma dependents_chunked_witness :
  fst (dependents Fixtures.empty_server ["g1"; "g2"; "g3"] false false 2)
  = [DependencyListDependents ["g1"; "g2"] "LOGICAL_TABLE";
     DependencyListDependents ["g3"] "LOGICAL_TABLE"]
  /\ length (fst (dependents Fixtures.empty_server ["g1"; "g2"; "g3"] false false 2)) = 2.
Proof.
  destruct (dependents_chunked Fixtures.empty_server ["g1"; "g2"; "g3"] false 2
              ltac:(lia)) as (H1 & H2 & _).
  split; [exact H1|exact H2].
Defined.

(** The chunked loop of [permissions], for a type of the table and users
    that all have an id: ceil(N/n) requests, one per chunk and with the ids
    of that chunk, and the rows of the responses in chunk order. *)
Theorem permissions_chunked (ts : ThoughtSpot) (guids : list GUID)
    (type_ permission_type : Enum) (n : nat) (t : string) (user_guids : list pyval)
    (Hn : 0 < n)
    (Htype : types_getitem (value type_) = Return t)
    (Husers : for_each (fun acc user => let! i := getitem user "id" in Return (acc ++ [i]))
                (user_all ts) [] = Return user_guids) :
  exists sent rows,
    permissions ts guids type_ permission_type n = Return (sent, rows)
    /\ sent = map (fun chunk => SecurityMetadataPermissions t chunk (value permission_type))
               (chunks guids n)
    /\ length sent = ceil_div (length guids) n
    /\ rows = flat_map
                (fun chunk =>
                   sharing_rows permission_type user_guids
                     (metadata_permissions ts t chunk (value permission_type)))
                (chunks guids n).
Proof.
  eexists _, _. split; [by apply permissions_eq|].
  split; [reflexivity|]. split; [rewrite length_map; by apply chunks_length|reflexivity].
Qed.

Lemma permissions_chunked_witness :
  exists sent rows,
    permissions Fixtures.empty_server ["g1"; "g2"; "g3"] {| value := "WORKSHEET" |}
      {| value := "DEFINED" |} 2 = Return (sent, rows)
    /\ sent = [SecurityMetadataPermissions "LOGICAL_TABLE" ["g1"; "g2"] "DEFINED";
               SecurityMetadataPermissions "LOGICAL_TABLE" ["g3"] "DEFINED"].
Proof.
  destruct (permissions_chunked Fixtures.empty_server ["g1"; "g2"; "g3"]
              {| value := "WORKSHEET" |} {| value := "DEFINED" |} 2 "LOGICAL_TABLE" []
              ltac:(lia) eq_refl eq_refl) as (sent & rows & H1 & H2 & _).
  exists sent, rows. split; [exact H1|exact H2].
Defined.

End ChunkedFacts.

(** ** The aggregation of [MetadataMiddleware.all] *)

Module AggregationFacts.
Import Metadata Fixtures Notions.

Lemma not_system_true (v : pyval) :
  not_system v = true <-> v <> PStr "system" /\ v <> PStr "tsadmin".
Proof.
  unfold not_system. rewrite negb_true_iff, orb_false_iff, !bool_decide_eq_false.
  reflexivity.
Qed.

(** A page that passes the exclusion comes out as the records that are
    not system-authored, in their order. *)
Lemma exclude_system_filter (l : list dict) :
  forall l', exclude_system l = Return l' -> l' = filter (fun r => ~ system_authored r) l.
Proof.
  induction l as [|r l IH]; intros l' H; simpl in H.
  - by inversion H.
  - unfold getitem in H. destruct (r !! "authorName") as [a|] eqn:Ha; simpl in H; [|discriminate].
    destruct (exclude_system l) as [kept|e]; simpl in H; [|discriminate].
    specialize (IH kept eq_refl). subst kept.
    inversion H as [H']; clear H H'.
    destruct (not_system a) eqn:Hn.
    + apply not_system_true in Hn as [H1 H2].
      rewrite filter_cons_True; [reflexivity|].
      unfold system_authored. rewrite Ha. intros [?|?]; congruence.
    + rewrite filter_cons_False; [reflexivity|].
      assert (~ (a <> PStr "system" /\ a <> PStr "tsadmin")) as Hn'.
      { intros Hc. apply not_system_true in Hc. congruence. }
      intros Hns. apply Hn'. unfold system_authored in Hns. rewrite Ha in Hns.
      split; intros ->; apply Hns; [by left|by right].
Qed.

Lemma exclude_system_returns (l : list dict) :
  Forall (fun r => is_Some (r !! "authorName")) l -> exists l', exclude_system l = Return l'.
Proof.
  induction 1 as [|r l [a Ha] _ [kept IH]]; simpl.
  - by eexists.
  - unfold getitem. rewrite Ha. simpl. rewrite IH. simpl. by eexists.
Qed.

(** A record without an author field stops the exclusion with a
    [KeyError]. *)
Lemma exclude_system_KeyError (r : dict) (l : list dict) :
  r !! "authorName" = None -> exclude_system (r :: l) = Raise (KeyError "authorName").
Proof. intros H. simpl. unfold getitem. by rewrite H. Qed.

(** The filter on its own: on a page whose records all have an author
    field, the exclusion keeps exactly the records whose author is neither
    "system" nor "tsadmin", in their order; without the exclusion the page is
    kept as it is. *)
Theorem system_filter_exact (to_extend : list dict)
    (Hauthor : Forall (fun r => is_Some (r !! "authorName")) to_extend) :
  filter_page true to_extend = Return (filter (fun r => ~ system_authored r) to_extend)
  /\ filter_page false to_extend = Return to_extend.
Proof.
  split; [|reflexivity].
  simpl. destruct (exclude_system_returns _ Hauthor) as [l' Hl'].
  rewrite Hl'. f_equal. by apply exclude_system_filter.
Qed.

Lemma system_filter_exact_witness :
  filter_page true [sales; region; amount] = Return [sales; amount]
  /\ filter_page false [sales; region; amount] = Return [sales; region; amount].
Proof.
  assert (Forall (fun r : dict => is_Some (r !! "authorName")) [sales; region; amount]) as H.
  { repeat constructor; vm_compute; eauto. }
  destruct (system_filter_exact _ H) as [H1 H2].
  split; [|exact H2].
  rewrite H1. vm_compute. reflexivity.
Defined.


(** *** The offset of the page requests *)

Lemma enrich_length (type_ : string) (st st' : gmap pyval pyval * list dict) (d : dict) :
  enrich type_ st d = Return st' -> length (snd st') = S (length (snd st)).
Proof.
  destruct st as [track ext]. unfold enrich, getitem.
  destruct (d !! "name"); simpl; [|discriminate].
  destruct (d !! "id"); simpl; [|discriminate].
  destruct (String.eqb type_ "LOGICAL_COLUMN"); simpl.
  - destruct (d !! "owner"); simpl; [|discriminate].
    intros [= <-]. simpl. rewrite length_app. simpl. lia.
  - intros [= <-]. simpl. rewrite length_app. simpl. lia.
Qed.

Lemma for_each_enrich_length (type_ : string) (ds : list dict) :
  forall st st', for_each (enrich type_) ds st = Return st' ->
                 length (snd st') = length (snd st) + length ds.
Proof.
  induction ds as [|d ds IH]; intros st st' H; simpl in H.
  - inversion H; subst; simpl; lia.
  - destruct (enrich type_ st d) as [st1|e] eqn:E; simpl in H; [|discriminate].
    apply IH in H. apply enrich_length in E. simpl. lia.
Qed.

Section offsets.
Variable ts : ThoughtSpot.
Variable tags : option (list string).
Variable category_ : MetadataCategory.
Variable exclude_system_content : bool.
Variable chunksize : Z.

Let request_at (type_ : string) (o : nat) : ListRequest :=
  list_request tags category_ chunksize type_ o.

Let fetched_count (type_ : string) (o : nat) : nat :=
  length (headers (metadata_list ts (request_at type_ o))).

(** One pass of the page loop of [all] sends the request for the
    current offset, and moves the offset on by the number of records of
    the page, whatever the exclusion keeps of them. *)
Lemma page_body_offset (type_ : string) (o o' : nat) (st st' : run) (last : bool) :
  page_body ts tags category_ exclude_system_content chunksize type_ o st
    = Return (o', st', last) ->
  o' = o + fetched_count type_ o
  /\ log st' = log st ++ [MetadataList (request_at type_ o)]
  /\ last = isLastBatch (metadata_list ts (request_at type_ o)).
Proof.
  unfold page_body, fetched_count, request_at.
  destruct (for_each _ _ _) as [[track' to_extend]|e] eqn:E; simpl; [|discriminate].
  apply for_each_enrich_length in E. simpl in E.
  destruct (filter_page _ _) as [kept|e]; simpl; [|discriminate].
  intros [= <- <- <-]. simpl. rewrite E. auto.
Qed.

(** The requests of the page loop of [all] for one type: the first at
    the offset the loop starts from, each later one at the offset before
    plus the number of records just fetched. *)
Lemma page_loop_offsets (fuel : nat) (type_ : string) :
  forall (o : nat) (st st' : run),
    page_loop ts tags category_ exclude_system_content chunksize fuel type_ o st
      = Some (Return st') ->
    exists os : list nat,
      log st' = log st ++ map (fun o => MetadataList (request_at type_ o)) (o :: os)
      /\ offsets_advance (fun o => fetched_count type_ o) o os.
Proof.
  induction fuel as [|fuel IH]; intros o st st' H; simpl in H; [discriminate|].
  destruct (page_body _ _ _ _ _ _ _ _) as [[[o1 st1] last]|e] eqn:E; [|discriminate].
  apply page_body_offset in E as (Ho & Hlog & _).
  destruct last.
  - inversion H; subst st1. exists []. simpl. auto.
  - apply IH in H as (os & Hlog' & Hadv).
    exists (o1 :: os). split.
    + rewrite Hlog', Hlog. simpl. by rewrite <- app_assoc.
    + simpl. auto.
Qed.
End offsets.

Lemma page_loop_offsets_witness :
  exists os : list nat,
    log (if page_loop paging_server None category_all false 500 2 "QUESTION_ANSWER_BOOK" 0
              empty_run is Some (Return st') then st' else empty_run)
    = [] ++ map (fun o => MetadataList
                           (list_request None category_all 500 "QUESTION_ANSWER_BOOK" o))
           (0 :: os)
    /\ os = [3].
Proof.
  destruct (page_loop paging_server None category_all false 500 2 "QUESTION_ANSWER_BOOK" 0
              empty_run) as [[st'|e]|] eqn:E;
    [|vm_compute in E; discriminate|vm_compute in E; discriminate].
  destruct (page_loop_offsets _ _ _ _ _ _ _ _ _ _ E) as (os & Hlog & Hadv).
  exists os. split; [exact Hlog|].
  destruct os as [|o1 [|o2 os]].
  - exfalso. vm_compute in E. injection E as <-. simpl in Hlog. discriminate.
  - destruct Hadv as [-> _]. reflexivity.
  - exfalso. vm_compute in E. injection E as <-. simpl in Hlog. discriminate.
Defined.

(** The page loop of [get_edoc_object_list] moves the offset on by the
    number of keys of the response, not by the number of records. *)
Lemma edoc_page_loop_step (ts : ThoughtSpot) (en : Enums) (guids : list GUID) (fuel : nat)
    (metadata_type : Enum) (o : nat) (st : list request * list dict) (mapped : list dict) :
  let data := metadata_list ts (edoc_request guids metadata_type o) in
  for_each (edoc_map en metadata_type) (headers data) (snd st) = Return mapped ->
  isLastBatch data = false ->
  edoc_page_loop ts en guids (S fuel) metadata_type o st
  = edoc_page_loop ts en guids fuel metadata_type (o + (2 + other_keys data))
      (fst st ++ [MetadataList (edoc_request guids metadata_type o)], mapped).
Proof. intros data Hm Hl. simpl. fold data. rewrite Hm, Hl. reflexivity. Qed.

(** C3 (at the input that shows the defect).  Four answers served three
    to a page: the first page holds three records and is not the last, and
    [get_edoc_object_list] asks for the next page at offset 2, the number
    of keys of the response, instead of 3; the third answer comes back a
    second time and is mapped twice. *)
Theorem edoc_offset_is_key_count :
  length (headers (metadata_list paging_server
                     (edoc_request ["a0"] {| value := "QUESTION_ANSWER_BOOK" |} 0))) = 3
  /\ get_edoc_object_list paging_server answers_only ["a0"] 2
     = Some (Return
         ([MetadataList (edoc_request ["a0"] {| value := "QUESTION_ANSWER_BOOK" |} 0);
           MetadataList (edoc_request ["a0"] {| value := "QUESTION_ANSWER_BOOK" |} 2);
           MetadataList (edoc_final_request ["a0"])],
          map (fun i => {[ "id" := PStr i; "type" := PStr "QUESTION_ANSWER_BOOK" ]})
            ["a0"; "a1"; "a2"; "a2"; "a3"])).
Proof. split; vm_compute; reflexivity. Qed.

(** The loop of [all] on the same platform asks for the second page at
    offset 3. *)
Example all_offset_is_record_count :
  match all_drain 2 paging_server false None category_all false 500 with
  | Some (Return st) =>
      log st !! 1
      = Some (MetadataList (list_request None category_all 500 "PINBOARD_ANSWER_BOOK" 3))
  | _ => False
  end.
Proof. vm_compute. reflexivity. Qed.


(** *** The error on empty content *)









(** The same platform with the fuel gone: no statement about [all]. *)
Example all_out_of_fuel :
  all 0 empty_server true None category_all true 500 = None.
Proof. reflexivity. Qed.

(** *** Fuel *)

Lemma page_loop_fuel_mono (ts : ThoughtSpot) (tags : option (list string))
    (category_ : MetadataCategory) (exclude : bool) (chunksize : Z) (fuel : nat) :
  forall (fuel' : nat) (type_ : string) (o : nat) (st : run) (r : result run),
    page_loop ts tags category_ exclude chunksize fuel type_ o st = Some r ->
    fuel <= fuel' ->
    page_loop ts tags category_ exclude chunksize fuel' type_ o st = Some r.
Proof.
  induction fuel as [|fuel IH]; intros fuel' type_ o st r H Hle; [discriminate|].
  destruct fuel' as [|fuel']; [lia|]. cbn [page_loop] in *.
  destruct (page_body _ _ _ _ _ _ _ _) as [[[o1 st1] last]|e]; [|exact H].
  destruct last; [exact H|]. apply IH; [exact H|lia].
Qed.

Lemma types_loop_fuel_mono (ts : ThoughtSpot) (tags : option (list string))
    (category_ : MetadataCategory) (exclude : bool) (chunksize : Z) (fuel fuel' : nat)
    (types_ : list string) :
  fuel <= fuel' ->
  forall (st : run) (r : result run),
    types_loop ts tags category_ exclude chunksize fuel types_ st = Some r ->
    types_loop ts tags category_ exclude chunksize fuel' types_ st = Some r.
Proof.
  intros Hle. induction types_ as [|t types_ IH]; intros st r H; cbn [types_loop] in *.
  - exact H.
  - destruct (page_loop ts tags category_ exclude chunksize fuel t 0 st) as [r1|] eqn:E;
      [|discriminate].
    rewrite (page_loop_fuel_mono _ _ _ _ _ _ _ _ _ _ _ E Hle).
    destruct r1 as [st1|e]; [by apply IH|exact H].
Qed.

(** A result of [all] stays the result on more fuel: the fuel only
    decides whether the loops are followed to their end. *)
Theorem all_fuel_mono (fuel fuel' : nat) (ts : ThoughtSpot) (include_columns : bool)
    (tags : option (string + list string)) (category_ : MetadataCategory)
    (exclude : bool) (chunksize : Z) (r : result (list request * list dict))
    (Hle : fuel <= fuel')
    (Hrun : all fuel ts include_columns tags category_ exclude chunksize = Some r) :
  all fuel' ts include_columns tags category_ exclude chunksize = Some r.
Proof.
  unfold all, all_drain in *.
  destruct (types_loop _ _ _ _ _ fuel _ _) as [r1|] eqn:E; [|discriminate].
  by rewrite (types_loop_fuel_mono _ _ _ _ _ _ _ _ Hle _ _ E).
Qed.

Lemma all_fuel_mono_witness :
  all 7 sales_server true None category_all false 500
  = Some (Return (one_page_log, sales_content)).
Proof.
  apply (all_fuel_mono 1 7); [lia|]. vm_compute. reflexivity.
Defined.


(** *** What a run keeps of the records it fetched *)

Lemma id_among_snoc (seen : list (string * dict)) (t : string) (d : dict) (k : pyval) :
  id_among (seen ++ [(t, d)]) k <-> id_among seen k \/ d !! "id" = Some k.
Proof.
  unfold id_among. split.
  - intros (t' & d' & Hin & Hid). apply elem_of_app in Hin as [Hin|Hin].
    + left. eauto.
    + apply list_elem_of_singleton in Hin. inversion Hin; subst. by right.
  - intros [(t' & d' & Hin & Hid)|Hid].
    + exists t', d'. split; [|done]. apply elem_of_app. by left.
    + exists t, d. split; [|done]. apply elem_of_app. right. by apply list_elem_of_singleton.
Qed.

Lemma tracks_insert (track : gmap pyval pyval) (seen : list (string * dict)) (t : string)
    (d : dict) (i name : pyval) :
  tracks track seen -> d !! "id" = Some i -> tracks (<[i := name]> track) (seen ++ [(t, d)]).
Proof.
  intros Htr Hid k. rewrite id_among_snoc, lookup_insert_is_Some, Hid.
  split.
  - intros [->|[_ H]]; [by right|]. left. by apply Htr.
  - intros [H|[= ->]]; [|by left].
    destruct (decide (i = k)); [by left|]. right. split; [done|]. by apply Htr.
Qed.

Lemma enrich_inv (t : string) (track track' : gmap pyval pyval) (ext ext' : list dict)
    (seen : list (string * dict)) (d : dict) :
  tracks track seen ->
  enrich t (track, ext) d = Return (track', ext') ->
  exists c, ext' = ext ++ [built (t, d, c)]
            /\ tracks track' (seen ++ [(t, d)])
            /\ context_ok seen t d c.
Proof.
  intros Htr. unfold enrich, getitem.
  destruct (d !! "name") as [name|] eqn:Hname; simpl; [|discriminate].
  destruct (d !! "id") as [i|] eqn:Hid; simpl; [|discriminate].
  pose proof (tracks_insert track seen t d i name Htr Hid) as Htr'.
  destruct (String.eqb t "LOGICAL_COLUMN") eqn:Ht; simpl.
  - apply String.eqb_eq in Ht.
    destruct (d !! "owner") as [owner|] eqn:Howner; simpl; [|discriminate].
    intros [= <- <-]. exists (dict_get (<[i := name]> track) owner).
    split; [reflexivity|]. split; [exact Htr'|].
    unfold context_ok, dict_get. split.
    + intros Hc. split; [exact Ht|]. exists owner. split; [exact Howner|].
      apply Htr'. destruct (<[i := name]> track !! owner); [eauto|]. by destruct Hc.
    + intros Hfwd. specialize (Hfwd owner Howner).
      destruct (<[i := name]> track !! owner) as [v|] eqn:E; [|reflexivity].
      exfalso. apply Hfwd, Htr'. rewrite E. eauto.
  - intros [= <- <-]. exists PNone. split; [reflexivity|]. split; [exact Htr'|].
    split; [intros Hc; by destruct Hc|reflexivity].
Qed.

Lemma for_each_enrich_inv (t : string) (ds : list dict) :
  forall (track track' : gmap pyval pyval) (ext ext' : list dict) (seen : list (string * dict)),
    tracks track seen ->
    for_each (enrich t) ds (track, ext) = Return (track', ext') ->
    exists rs : list (string * dict * pyval),
      fst <$> rs = pair t <$> ds
      /\ ext' = ext ++ (built <$> rs)
      /\ tracks track' (seen ++ (pair t <$> ds))
      /\ all_ok seen rs.
Proof.
  induction ds as [|d ds IH]; intros track track' ext ext' seen Htr H;
    cbn [for_each] in H.
  - inversion H; subst. exists []. simpl. rewrite !app_nil_r. auto.
  - destruct (enrich t (track, ext) d) as [[track1 ext1]|e] eqn:E;
      cbn [Py.bind] in H; [|discriminate].
    destruct (enrich_inv _ _ _ _ _ _ _ Htr E) as (c & -> & Htr1 & Hc).
    destruct (IH _ _ _ _ _ Htr1 H) as (rs & Hfst & -> & Htr' & Hok).
    exists ((t, d, c) :: rs). rewrite !fmap_cons, Hfst.
    split; [reflexivity|]. split; [by rewrite <- app_assoc|].
    split; [by rewrite <- app_assoc in Htr'|]. simpl. auto.
Qed.

Lemma all_ok_app (recs rs : list (string * dict * pyval)) :
  forall seen, all_ok seen recs -> all_ok (seen ++ (fst <$> recs)) rs -> all_ok seen (recs ++ rs).
Proof.
  induction recs as [|x recs IH]; intros seen H1 H2; simpl in *.
  - by rewrite app_nil_r in H2.
  - destruct H1 as [Hx H1]. split; [exact Hx|].
    apply IH; [exact H1|]. by rewrite <- app_assoc.
Qed.

Lemma all_ok_split (before after : list (string * dict * pyval)) (x : string * dict * pyval) :
  forall seen, all_ok seen (before ++ x :: after) ->
               context_ok (seen ++ (fst <$> before)) x.1.1 x.1.2 x.2.
Proof.
  induction before as [|y before IH]; intros seen H; simpl in *.
  - rewrite app_nil_r. tauto.
  - destruct H as [_ H]. apply IH in H. by rewrite <- app_assoc in H.
Qed.

Lemma fetched_snoc (ts : ThoughtSpot) (l : list request) (req : ListRequest) :
  fetched ts (l ++ [MetadataList req])
  = fetched ts l ++ (pair (default "" (type req)) <$> headers (metadata_list ts req)).
Proof. unfold fetched. rewrite flat_map_app. simpl. by rewrite app_nil_r. Qed.

Lemma filter_page_kept (exclude : bool) (l l' : list dict) :
  filter_page exclude l = Return l' -> l' = kept exclude l.
Proof.
  destruct exclude; simpl.
  - apply exclude_system_filter.
  - by intros [= <-].
Qed.

Lemma kept_app (exclude : bool) (l1 l2 : list dict) :
  kept exclude (l1 ++ l2) = kept exclude l1 ++ kept exclude l2.
Proof. destruct exclude; simpl; [apply filter_app|reflexivity]. Qed.

Section run_invariant.
Variable ts : ThoughtSpot.
Variable tags : option (list string).
Variable category_ : MetadataCategory.
Variable exclude : bool.
Variable chunksize : Z.

Let run_inv := run_inv ts exclude.

Lemma run_inv_empty : run_inv empty_run.
Proof.
  exists []. simpl. split; [reflexivity|]. split; [by destruct exclude|].
  split; [|exact I].
  intros k. rewrite lookup_empty. split; [by intros [? ?]|].
  intros (t & d & Hin & _). by apply elem_of_nil in Hin.
Qed.

Lemma page_body_inv (type_ : string) (o o' : nat) (st st' : run) (last : bool) :
  run_inv st ->
  page_body ts tags category_ exclude chunksize type_ o st = Return (o', st', last) ->
  run_inv st'.
Proof.
  intros (recs & Hfst & Hcontent & Htr & Hok). unfold page_body.
  destruct (for_each _ _ _) as [[track' to_extend]|e] eqn:E; simpl; [|discriminate].
  destruct (for_each_enrich_inv _ _ _ _ _ _ _ Htr E) as (rs & Hrs & -> & Htr' & Hok').
  destruct (filter_page _ _) as [to_extend'|e] eqn:F; simpl; [|discriminate].
  apply filter_page_kept in F. subst to_extend'.
  intros [= <- <- <-]. exists (recs ++ rs). simpl.
  rewrite fetched_snoc. simpl. rewrite !fmap_app, Hfst, Hrs, kept_app, Hcontent.
  split; [reflexivity|]. split; [reflexivity|]. split; [exact Htr'|].
  apply all_ok_app; [exact Hok|]. simpl. by rewrite Hfst.
Qed.

Lemma page_loop_inv (fuel : nat) (type_ : string) :
  forall (o : nat) (st st' : run),
    run_inv st ->
    page_loop ts tags category_ exclude chunksize fuel type_ o st = Some (Return st') ->
    run_inv st'.
Proof.
  induction fuel as [|fuel IH]; intros o st st' Hinv H; simpl in H; [discriminate|].
  destruct (page_body _ _ _ _ _ _ _ _) as [[[o1 st1] last]|e] eqn:E; [|discriminate].
  apply page_body_inv in E; [|exact Hinv].
  destruct last; [by inversion H; subst|]. by eapply IH.
Qed.

Lemma types_loop_inv (fuel : nat) (types_ : list string) :
  forall (st st' : run),
    run_inv st ->
    types_loop ts tags category_ exclude chunksize fuel types_ st = Some (Return st') ->
    run_inv st'.
Proof.
  induction types_ as [|t types_ IH]; intros st st' Hinv H; simpl in H.
  - by inversion H; subst.
  - destruct (page_loop _ _ _ _ _ _ _ _ _) as [[st1|e]|] eqn:E; try discriminate.
    apply page_loop_inv in E; [|exact Hinv]. by eapply IH.
Qed.
End run_invariant.

(** The collection at the end of the loops of [all]: the records built
    from the headers fetched, in fetch order, less what the exclusion of
    system content drops; the context of each is right for the records
    fetched up to it. *)
Lemma all_drain_records (fuel : nat) (ts : ThoughtSpot) (include_columns : bool)
    (tags : option (string + list string)) (category_ : MetadataCategory)
    (exclude : bool) (chunksize : Z) (st : run) :
  all_drain fuel ts include_columns tags category_ exclude chunksize = Some (Return st) ->
  exists recs : list (string * dict * pyval),
    fst <$> recs = fetched ts (log st)
    /\ content st = kept exclude (built <$> recs)
    /\ all_ok [] recs.
Proof.
  intros H. apply types_loop_inv in H; [|apply run_inv_empty].
  destruct H as (recs & H1 & H2 & _ & H3). eauto.
Qed.


Lemma all_returns_inv (fuel : nat) (ts : ThoughtSpot) (include_columns : bool)
    (tags : option (string + list string)) (category_ : MetadataCategory)
    (exclude : bool) (chunksize : Z) (l : list request) (c : list dict) :
  all fuel ts include_columns tags category_ exclude chunksize = Some (Return (l, c)) ->
  exists st, all_drain fuel ts include_columns tags category_ exclude chunksize
             = Some (Return st)
             /\ log st = l /\ content st = c.
Proof.
  unfold all.
  destruct (all_drain _ _ _ _ _ _ _) as [[st|e]|]; try discriminate.
  destruct (content st) eqn:E; [discriminate|].
  intros [= <- <-]. eauto.
Qed.

Lemma enrich_returns (t : string) (track : gmap pyval pyval) (ext : list dict) (d : dict) :
  is_Some (d !! "name") -> is_Some (d !! "id") -> is_Some (d !! "owner") ->
  exists track' c, enrich t (track, ext) d = Return (track', ext ++ [built (t, d, c)]).
Proof.
  intros [name Hname] [i Hi] [owner Howner]. unfold enrich, getitem.
  rewrite Hname, Hi. simpl. destruct (String.eqb t "LOGICAL_COLUMN"); simpl.
  - rewrite Howner. simpl. eauto.
  - eauto.
Qed.

(** C6, as the code has it.  In a run of the loops of [all], the
    collection is built from the headers fetched, in fetch order.  The
    context looked up for a record is other than [None] only for a column
    whose owner is the id of a record fetched before it in the run, or its
    own id; when the owner is the id of neither, the context is [None].
    The lookup itself never raises: a header with a name, an id and an
    owner is enriched whatever the table of ids holds. *)
Theorem context_lookup_backward (fuel : nat) (ts : ThoughtSpot) (include_columns : bool)
    (tags : option (string + list string)) (category_ : MetadataCategory)
    (exclude : bool) (chunksize : Z) (st : run)
    (Hrun : all_drain fuel ts include_columns tags category_ exclude chunksize
            = Some (Return st)) :
  (exists recs : list (string * dict * pyval),
     fst <$> recs = fetched ts (log st)
     /\ content st = kept exclude (built <$> recs)
     /\ forall before t d c after,
          recs = before ++ (t, d, c) :: after ->
          (c <> PNone ->
           t = "LOGICAL_COLUMN"
           /\ exists owner t' d',
                d !! "owner" = Some owner
                /\ (t', d') ∈ (fst <$> before) ++ [(t, d)]
                /\ d' !! "id" = Some owner)
          /\ ((forall t' d', (t', d') ∈ (fst <$> before) ++ [(t, d)] ->
                             d' !! "id" <> d !! "owner") ->
              c = PNone))
  /\ (forall t track ext d,
        is_Some (d !! "name") -> is_Some (d !! "id") -> is_Some (d !! "owner") ->
        exists track' c, enrich t (track, ext) d = Return (track', ext ++ [built (t, d, c)])).
Proof.
  split; [|intros; by apply enrich_returns].
  destruct (all_drain_records _ _ _ _ _ _ _ _ Hrun) as (recs & Hfst & Hcontent & Hok).
  exists recs. split; [exact Hfst|]. split; [exact Hcontent|].
  intros before t d c after ->.
  apply all_ok_split in Hok. simpl in Hok. destruct Hok as [Hsome Hnone]. split.
  - intros Hc. destruct (Hsome Hc) as (Ht & owner & Howner & t' & d' & Hin & Hid).
    split; [exact Ht|]. exists owner, t', d'. auto.
  - intros Hfwd. apply Hnone. intros owner Howner (t' & d' & Hin & Hid).
    apply (Hfwd t' d' Hin). congruence.
Qed.

Lemma context_lookup_backward_witness :
  all_drain 1 sales_server true None category_all false 500 = Some (Return sales_run)
  /\ exists recs : list (string * dict * pyval),
       fst <$> recs = fetched sales_server one_page_log
       /\ sales_content = built <$> recs.
Proof.
  assert (all_drain 1 sales_server true None category_all false 500
          = Some (Return sales_run)) as Hrun by (vm_compute; reflexivity).
  split; [exact Hrun|].
  destruct (context_lookup_backward 1 sales_server true None category_all false 500
              sales_run Hrun) as [(recs & H1 & H2 & _) _].
  exists recs. split; [exact H1|exact H2].
Defined.

(** C6 as stated fails on a column that is its own owner: it is the only
    record the run fetches, no record comes before it, and the lookup of
    its owner finds the name of the column itself. *)
Lemma context_of_own_id :
  all 1 loner_server true None category_all false 500
  = Some (Return (one_page_log, [built ("LOGICAL_COLUMN", loner, PStr "Loner")]))
  /\ fetched loner_server one_page_log = [("LOGICAL_COLUMN", loner)]
  /\ loner !! "owner" = Some (PStr "c7")
  /\ loner !! "id" = Some (PStr "c7")
  /\ built ("LOGICAL_COLUMN", loner, PStr "Loner") !! "context" = Some (PStr "Loner").
Proof. repeat split; vm_compute; reflexivity. Qed.

(** *** Injected fields and header fields *)

Lemma built_lookup_header (t : string) (d : dict) (c : pyval) (k : string) (v : pyval) :
  d !! k = Some v -> built (t, d, c) !! k = Some v.
Proof. intros H. unfold built, merge_over. simpl. by apply lookup_union_Some_l. Qed.

Lemma built_lookup_type (t : string) (d : dict) (c : pyval) :
  d !! "type" = None -> built (t, d, c) !! "type" = Some (PStr t).
Proof.
  intros H. unfold built, merge_over. simpl.
  rewrite lookup_union_r by exact H. apply lookup_insert_eq.
Qed.

Lemma built_lookup_context (t : string) (d : dict) (c : pyval) :
  d !! "context" = None -> built (t, d, c) !! "context" = Some c.
Proof.
  intros H. unfold built, merge_over. simpl.
  rewrite lookup_union_r by exact H.
  rewrite lookup_insert_ne by discriminate. apply lookup_singleton_eq.
Qed.

(** C9.  Every record [all] returns is the merge of a header fetched
    in the run over the injected fields: every field of the header keeps
    the value of the header, also "type" and "context" when the header
    has them, and the injected "type" and "context" show only where the
    header has no such field. *)
Theorem header_fields_override (fuel : nat) (ts : ThoughtSpot) (include_columns : bool)
    (tags : option (string + list string)) (category_ : MetadataCategory)
    (exclude : bool) (chunksize : Z) (l : list request) (records : list dict)
    (Hrun : all fuel ts include_columns tags category_ exclude chunksize
            = Some (Return (l, records)))
    (r : dict) (Hr : r ∈ records) :
  exists (t : string) (d : dict) (c : pyval),
    (t, d) ∈ fetched ts l
    /\ r = merge_over {[ "type" := PStr t; "context" := c ]} d
    /\ (forall k v, d !! k = Some v -> r !! k = Some v)
    /\ (d !! "type" = None -> r !! "type" = Some (PStr t))
    /\ (d !! "context" = None -> r !! "context" = Some c).
Proof.
  apply all_returns_inv in Hrun as (st & Hrun & <- & <-).
  destruct (all_drain_records _ _ _ _ _ _ _ _ Hrun) as (recs & Hfst & Hcontent & _).
  rewrite Hcontent in Hr.
  assert (r ∈ built <$> recs) as Hin.
  { destruct exclude; simpl in Hr; [|exact Hr].
    by apply list_elem_of_filter in Hr as [_ Hr]. }
  apply list_elem_of_fmap in Hin as ([[t d] c] & -> & Hin).
  exists t, d, c. split.
  - rewrite <- Hfst. apply list_elem_of_fmap. by exists (t, d, c).
  - split; [reflexivity|]. split; [intros k v; apply built_lookup_header|].
    split; [apply built_lookup_type|apply built_lookup_context].
Qed.

Lemma header_fields_override_witness :
  exists (t : string) (d : dict) (c : pyval),
    (t, d) ∈ fetched sales_server one_page_log
    /\ merge_over {[ "type" := PStr "LOGICAL_TABLE"; "context" := PNone ]} sales
       = merge_over {[ "type" := PStr t; "context" := c ]} d
    /\ (forall k v, d !! k = Some v ->
          merge_over {[ "type" := PStr "LOGICAL_TABLE"; "context" := PNone ]} sales !! k
          = Some v)
    /\ (d !! "type" = None ->
        merge_over {[ "type" := PStr "LOGICAL_TABLE"; "context" := PNone ]} sales !! "type"
        = Some (PStr t))
    /\ (d !! "context" = None ->
        merge_over {[ "type" := PStr "LOGICAL_TABLE"; "context" := PNone ]} sales !! "context"
        = Some c).
Proof.
  apply (header_fields_override 1 sales_server true None category_all false 500
           one_page_log sales_content).
  - vm_compute. reflexivity.
  - unfold sales_content. apply elem_of_cons. left. reflexivity.
Defined.

(** The worksheet header has a "type" of its own, and the record built
    from it shows that one, not the injected "LOGICAL_TABLE". *)
Example sales_keeps_its_type :
  merge_over {[ "type" := PStr "LOGICAL_TABLE"; "context" := PNone ]} sales !! "type"
  = Some (PStr "WORKSHEET")
  /\ merge_over {[ "type" := PStr "LOGICAL_COLUMN"; "context" := PStr "Sales" ]} amount
     !! "type" = Some (PStr "LOGICAL_COLUMN").
Proof. split; vm_compute; reflexivity. Qed.

End AggregationFacts.

(** ** The tasks of the live board *)

Module TaskFacts.
Import Layout Fixtures.

(** Entering a task shows the running glyph, skipped or not. *)
Lemma enter_status (t : WorkTask) (now : Z) :
  status (fst (__enter__ t now)) = Some ":fire:".
Proof. unfold __enter__, live_refresh. simpl. by destruct (_live t). Qed.

Lemma enter_keeps_flags (t : WorkTask) (now : Z) :
  _skipped (fst (__enter__ t now)) = _skipped t
  /\ _stopped (fst (__enter__ t now)) = _stopped t
  /\ _total_duration (fst (__enter__ t now)) = _total_duration t
  /\ _started_at (fst (__enter__ t now)) = Some now.
Proof. unfold __enter__, live_refresh. simpl. by destruct (_live t). Qed.

(** Leaving a skipped task leaves its glyph as it is. *)
Lemma exit_skipped_status (t : WorkTask) (exc : option exn) (now : Z) :
  _skipped t = true -> status (fst (__exit__ t exc now)) = status t.
Proof.
  intros H. unfold __exit__, live_refresh. rewrite H.
  destruct (_started_at t); simpl; [|reflexivity]. by destruct (_live t).
Qed.

(** C2 (at the input that shows the defect).  A task skipped before it
    is started has its glyph cleared; entering it then shows the running
    glyph, and leaving it keeps the running glyph. *)
Theorem skip_then_enter_shows_running :
  status (skip pending) = None
  /\ _skipped (skip pending) = true
  /\ status (fst (__enter__ (skip pending) 100)) = Some ":fire:"
  /\ status (fst (__exit__ (fst (__enter__ (skip pending) 100)) None 250)) = Some ":fire:".
Proof. repeat split. Qed.

(** *** A block that ends with an error *)

(** C7 as stated fails on a task skipped inside its block: the error is
    passed on, the glyph stays cleared and is not the failure glyph. *)
Lemma skipped_task_not_marked_failed :
  snd (with_task pending 100 (fun t => (skip t, Some (KeyError "boom"))) 250)
  = Raise (KeyError "boom")
  /\ status (fst (with_task pending 100 (fun t => (skip t, Some (KeyError "boom"))) 250))
     = None
  /\ _total_duration
       (fst (with_task pending 100 (fun t => (skip t, Some (KeyError "boom"))) 250))
     = 150%Z.
Proof. repeat split. Qed.

(** C7, as the code has it.  A task bound to a display is entered at
    [now_enter]; its block ends with the error [e] and leaves the task as
    [t2], with the start time and the display as they were.  Then the
    error is passed on to the caller, with the time from [now_enter] to
    [now_exit] added to the total, the task stopped, and the glyph set to
    the failure glyph unless the task is skipped, in which case the glyph is
    the one the block left. *)
Theorem failing_block_propagates (t : WorkTask) (now_enter now_exit : Z)
    (body : WorkTask -> WorkTask * option exn) (t2 : WorkTask) (e : exn)
    (Hlive : is_Some (_live t))
    (Hbody : body (fst (__enter__ t now_enter)) = (t2, Some e))
    (Hstart : _started_at t2 = Some now_enter)
    (Hlive2 : is_Some (_live t2)) :
  snd (with_task t now_enter body now_exit) = Raise e
  /\ _total_duration (fst (with_task t now_enter body now_exit))
     = (_total_duration t2 + (now_exit - now_enter))%Z
  /\ _stopped (fst (with_task t now_enter body now_exit)) = true
  /\ status (fst (with_task t now_enter body now_exit))
     = (if _skipped t2 then status t2 else Some ":cross_mark:").
Proof.
  destruct Hlive as [n Hn]. destruct Hlive2 as [n2 Hn2].
  unfold with_task.
  assert (snd (__enter__ t now_enter) = Return tt) as He.
  { unfold __enter__, live_refresh. simpl. by rewrite Hn. }
  destruct (__enter__ t now_enter) as [t1 r1]. simpl in He, Hbody. subst r1.
  rewrite Hbody. unfold __exit__, live_refresh. rewrite Hstart. simpl. rewrite Hn2.
  simpl. repeat split.
Qed.

Lemma failing_block_propagates_witness :
  snd (with_task pending 100 (fun t => (t, Some (KeyError "boom"))) 250)
  = Raise (KeyError "boom")
  /\ _total_duration (fst (with_task pending 100 (fun t => (t, Some (KeyError "boom"))) 250))
     = 150%Z
  /\ _stopped (fst (with_task pending 100 (fun t => (t, Some (KeyError "boom"))) 250)) = true
  /\ status (fst (with_task pending 100 (fun t => (t, Some (KeyError "boom"))) 250))
     = Some ":cross_mark:".
Proof.
  exact (failing_block_propagates pending 100 250
           (fun t => (t, Some (KeyError "boom")))
           (fst (__enter__ pending 100)) (KeyError "boom")
           (ex_intro _ 0%nat eq_refl) eq_refl eq_refl (ex_intro _ 1%nat eq_refl)).
Defined.

(** *** The duration shown *)

(** A task that was never stopped shows the time since its start plus
    the total accumulated. *)
Lemma duration_running (t : WorkTask) (s now : Z) :
  _stopped t = false -> _started_at t = Some s ->
  duration t now = Return ((now - s) + _total_duration t)%Z.
Proof. intros H1 H2. unfold duration, started_at. by rewrite H1, H2. Qed.

(** A stopped task shows the total accumulated, whenever it is asked. *)
Lemma duration_stopped (t : WorkTask) (now : Z) :
  _stopped t = true -> duration t now = Return (_total_duration t).
Proof. intros H. unfold duration. by rewrite H. Qed.

(** Once stopped, a task stays stopped through every later start. *)
Lemma enter_after_stop (t : WorkTask) (now later : Z) :
  _stopped t = true ->
  duration (fst (__enter__ t now)) later = Return (_total_duration t).
Proof.
  intros H. destruct (enter_keeps_flags t now) as (_ & Hs & Hd & _).
  rewrite duration_stopped by congruence. by rewrite Hd.
Qed.

(** One cycle of a task bound to a display and never stopped before:
    from its start at [s] until its stop it shows the time since [s] plus
    the total so far, and from its stop at [e] on it shows that total plus
    [e - s], whenever it is asked. *)
Theorem duration_one_cycle (t : WorkTask) (s e : Z) (exc : option exn)
    (Hlive : is_Some (_live t)) (Hfresh : _stopped t = false) :
  let running := fst (__enter__ t s) in
  let stopped := fst (__exit__ running exc e) in
  (forall now, duration running now = Return ((now - s) + _total_duration t)%Z)
  /\ (forall now, duration stopped now = Return (_total_duration t + (e - s))%Z).
Proof.
  destruct Hlive as [n Hn]. unfold __enter__, __exit__, live_refresh. rewrite Hn. simpl.
  split; intros now; unfold duration, started_at; simpl.
  - by rewrite Hfresh.
  - reflexivity.
Qed.

Lemma duration_one_cycle_witness :
  duration (fst (__enter__ pending 0)) 4000000 = Return 4000000%Z
  /\ duration (fst (__exit__ (fst (__enter__ pending 0)) None 10000000)) 15000000
     = Return 10000000%Z.
Proof.
  destruct (duration_one_cycle pending 0 10000000 None (ex_intro _ 0%nat eq_refl) eq_refl)
    as [H1 H2].
  split; [exact (H1 4000000%Z)|exact (H2 15000000%Z)].
Defined.

(** C8 (at the input that shows the defect).  Times in microseconds: a
    task runs from 0 s to 10 s and is started again at 20 s.  During the
    first run it shows the time since its start; after the first stop it
    shows 10 s.  At 25 s, five seconds into the second run, it still shows
    10 s, not 15 s: [_stopped] is still set.  The second stop, at 30 s,
    brings the total to 20 s. *)
Theorem duration_frozen_in_second_run :
  let t1 := fst (__enter__ pending 0) in
  let t2 := fst (__exit__ t1 None 10000000) in
  let t3 := fst (__enter__ t2 20000000) in
  let t4 := fst (__exit__ t3 None 30000000) in
  duration t1 4000000 = Return 4000000%Z
  /\ duration t2 15000000 = Return 10000000%Z
  /\ _started_at t3 = Some 20000000%Z
  /\ _stopped t3 = true
  /\ duration t3 25000000 = Return 10000000%Z
  /\ duration t4 40000000 = Return 20000000%Z.
Proof. repeat split. Qed.

End TaskFacts.

(** ** The search by name *)

Module SearchFacts.
Import Metadata Search Fixtures.

Lemma same_name_none (casefold : string -> string) (guid : string) (hs : list dict) :
  Forall (fun h => exists n, h !! "name" = Some (PStr n) /\ casefold n <> casefold guid) hs ->
  same_name casefold (PStr guid) hs = Return [].
Proof.
  induction 1 as [|h hs (n & Hn & Hne) _ IH]; [reflexivity|].
  cbn [same_name]. unfold getitem. rewrite Hn. cbn [Py.bind casefold_of]. rewrite IH.
  cbn [Py.bind]. apply String.eqb_neq in Hne. by rewrite Hne.
Qed.

(** C10.  Exactly one of [worksheet], [table], [view] is given and the name
    [guid] it selects is not a valid GUID; the listing by pattern returns
    headers, none of which has a name equal to [guid] up to case folding.
    Then [__call__] sends the listing request and raises [IndexError],
    where the list of the headers of that name is indexed at 0. *)
Theorem no_header_of_that_name_IndexError (ts : ThoughtSpot) (casefold : string -> string)
    (is_valid_guid : pyval -> bool) (query : string) (worksheet table view : option string)
    (guid : string)
    (Hone : count_None [to_py worksheet; to_py table; to_py view] = 2)
    (Hguid : py_or (py_or (to_py worksheet) (to_py table)) (to_py view) = PStr guid)
    (Hinvalid : is_valid_guid (PStr guid) = false)
    (Hheaders : headers (metadata_list ts (search_request (PStr guid))) <> [])
    (Hnames : Forall (fun h => exists n, h !! "name" = Some (PStr n)
                                         /\ casefold n <> casefold guid)
                (headers (metadata_list ts (search_request (PStr guid))))) :
  __call__ ts casefold is_valid_guid query worksheet table view
  = ([MetadataList (search_request (PStr guid))], Raise IndexError).
Proof.
  unfold __call__. rewrite Hone, Hguid, Hinvalid. cbn [Nat.eqb negb].
  unfold resolve_name.
  destruct (headers (metadata_list ts (search_request (PStr guid)))) as [|h hs] eqn:E;
    [congruence|].
  rewrite (same_name_none casefold guid (h :: hs) Hnames). reflexivity.
Qed.

Lemma no_header_of_that_name_IndexError_witness :
  __call__ sales_listing (fun s => s) (fun _ => false) "[Amount]" (Some "Sale") None None
  = ([MetadataList (search_request (PStr "Sale"))], Raise IndexError).
Proof.
  apply (no_header_of_that_name_IndexError sales_listing (fun s => s) (fun _ => false)
           "[Amount]" (Some "Sale") None None "Sale").
  - reflexivity.
  - reflexivity.
  - reflexivity.
  - simpl. discriminate.
  - simpl. constructor; [|constructor].
    exists "Sales". split; [vm_compute; reflexivity|discriminate].
Defined.

(** With no header at all the same call raises [ContentDoesNotExist], and
    with two headers of that name [AmbiguousContentError]. *)
Example no_header_ContentDoesNotExist :
  snd (__call__ empty_server (fun s => s) (fun _ => false) "[Amount]" (Some "Sale") None None)
  = Raise (ContentDoesNotExist (ErrName "LOGICAL_TABLE") (Some (PStr "Sale")) None).
Proof. reflexivity. Qed.

End SearchFacts.


(** ** The search: the other outcomes *)

Module SearchOutcomes.
Import Metadata Search Fixtures Notions.

Lemma same_name_filter (casefold : string -> string) (guid : string) (hs : list dict) :
  Forall named hs ->
  same_name casefold (PStr guid) hs = Return (List.filter (name_matches casefold guid) hs).
Proof.
  induction 1 as [|h hs [n Hn] _ IH]; [reflexivity|].
  cbn [same_name List.filter]. unfold getitem, name_matches. rewrite Hn.
  cbn [Py.bind casefold_of]. rewrite IH. cbn [Py.bind]. reflexivity.
Qed.

(** Unless exactly one of [worksheet], [table], [view] is given, [__call__]
    raises [TypeError] and sends no request. *)
Theorem selectors_TypeError (ts : ThoughtSpot) (casefold : string -> string)
    (is_valid_guid : pyval -> bool) (query : string) (worksheet table view : option string)
    (Hcount : count_None [to_py worksheet; to_py table; to_py view] <> 2) :
  exists msg, __call__ ts casefold is_valid_guid query worksheet table view
              = ([], Raise (TypeError msg)).
Proof.
  unfold __call__.
  destruct (Nat.eqb (count_None _) 3); [eauto|].
  apply Nat.eqb_neq in Hcount. rewrite Hcount. cbn [negb]. eauto.
Qed.

Lemma selectors_TypeError_witness :
  exists msg, __call__ empty_server (fun s => s) (fun _ => false) "[Amount]"
                (Some "Sales") (Some "Orders") None
              = ([], Raise (TypeError msg)).
Proof.
  apply selectors_TypeError. vm_compute. discriminate.
Defined.

(** A selector that is a valid GUID is searched as it is: no listing is
    asked for, and the one request is the search. *)
Theorem valid_guid_searched_directly (ts : ThoughtSpot) (casefold : string -> string)
    (is_valid_guid : pyval -> bool) (query : string) (worksheet table view : option string)
    (guid : pyval)
    (Hone : count_None [to_py worksheet; to_py table; to_py view] = 2)
    (Hguid : py_or (py_or (to_py worksheet) (to_py table)) (to_py view) = guid)
    (Hvalid : is_valid_guid guid = true) :
  __call__ ts casefold is_valid_guid query worksheet table view
  = ([SearchData query guid "FULL"], Return (searchdata ts query guid "FULL")).
Proof.
  unfold __call__. rewrite Hone, Hguid, Hvalid. reflexivity.
Qed.

Lemma valid_guid_searched_directly_witness :
  __call__ empty_server (fun s => s) (fun _ => true) "[Amount]" None (Some "t1") None
  = ([SearchData "[Amount]" (PStr "t1") "FULL"], Return []).
Proof.
  exact (valid_guid_searched_directly empty_server (fun s => s) (fun _ => true) "[Amount]"
           None (Some "t1") None (PStr "t1") eq_refl eq_refl eq_refl).
Defined.

(** A name that is not a valid GUID and that exactly one of the headers
    listed has, up to case folding, is replaced by the id of that header:
    the listing is asked for, then the search is sent with the id. *)
Theorem unique_name_resolved (ts : ThoughtSpot) (casefold : string -> string)
    (is_valid_guid : pyval -> bool) (query : string) (worksheet table view : option string)
    (guid : string) (h : dict) (i : pyval)
    (Hone : count_None [to_py worksheet; to_py table; to_py view] = 2)
    (Hguid : py_or (py_or (to_py worksheet) (to_py table)) (to_py view) = PStr guid)
    (Hinvalid : is_valid_guid (PStr guid) = false)
    (Hnamed : Forall named (headers (metadata_list ts (search_request (PStr guid)))))
    (Hunique : List.filter (name_matches casefold guid)
                 (headers (metadata_list ts (search_request (PStr guid)))) = [h])
    (Hid : h !! "id" = Some i) :
  __call__ ts casefold is_valid_guid query worksheet table view
  = ([MetadataList (search_request (PStr guid)); SearchData query i "FULL"],
     Return (searchdata ts query i "FULL")).
Proof.
  unfold __call__. rewrite Hone, Hguid, Hinvalid. cbn [Nat.eqb negb].
  unfold resolve_name.
  destruct (headers (metadata_list ts (search_request (PStr guid)))) as [|h0 hs] eqn:E;
    [discriminate|].
  rewrite (same_name_filter casefold guid (h0 :: hs) Hnamed), Hunique.
  cbn [Py.bind length Nat.ltb Nat.leb]. unfold getitem. rewrite Hid. reflexivity.
Qed.

Lemma unique_name_resolved_witness :
  __call__ sales_listing fold_sales (fun _ => false) "[Amount]" (Some "SALES") None None
  = ([MetadataList (search_request (PStr "SALES")); SearchData "[Amount]" (PStr "t1") "FULL"],
     Return []).
Proof.
  apply (unique_name_resolved sales_listing fold_sales (fun _ => false) "[Amount]"
           (Some "SALES") None None "SALES" sales (PStr "t1")).
  - reflexivity.
  - reflexivity.
  - reflexivity.
  - repeat constructor. exists "Sales". vm_compute. reflexivity.
  - vm_compute. reflexivity.
  - vm_compute. reflexivity.
Defined.

(** A name that is not a valid GUID and that more than one of the headers
    listed has, up to case folding, raises [AmbiguousContentError]; the
    listing is the only request sent. *)
Theorem ambiguous_name_raises (ts : ThoughtSpot) (casefold : string -> string)
    (is_valid_guid : pyval -> bool) (query : string) (worksheet table view : option string)
    (guid : string)
    (Hone : count_None [to_py worksheet; to_py table; to_py view] = 2)
    (Hguid : py_or (py_or (to_py worksheet) (to_py table)) (to_py view) = PStr guid)
    (Hinvalid : is_valid_guid (PStr guid) = false)
    (Hnamed : Forall named (headers (metadata_list ts (search_request (PStr guid)))))
    (Hmany : 1 < length (List.filter (name_matches casefold guid)
                           (headers (metadata_list ts (search_request (PStr guid)))))) :
  __call__ ts casefold is_valid_guid query worksheet table view
  = ([MetadataList (search_request (PStr guid))],
     Raise (AmbiguousContentError (PStr guid) "LOGICAL_TABLE")).
Proof.
  unfold __call__. rewrite Hone, Hguid, Hinvalid. cbn [Nat.eqb negb].
  unfold resolve_name.
  destruct (headers (metadata_list ts (search_request (PStr guid)))) as [|h0 hs] eqn:E;
    [simpl in Hmany; lia|].
  rewrite (same_name_filter casefold guid (h0 :: hs) Hnamed). cbn [Py.bind].
  apply Nat.ltb_lt in Hmany. rewrite Hmany. reflexivity.
Qed.

Lemma ambiguous_name_raises_witness :
  __call__ two_sales_listing fold_sales (fun _ => false) "[Amount]" None None (Some "Sales")
  = ([MetadataList (search_request (PStr "Sales"))],
     Raise (AmbiguousContentError (PStr "Sales") "LOGICAL_TABLE")).
Proof.
  apply (ambiguous_name_raises two_sales_listing fold_sales (fun _ => false) "[Amount]"
           None None (Some "Sales") "Sales").
  - reflexivity.
  - reflexivity.
  - reflexivity.
  - repeat constructor; [exists "Sales"|exists "SALES"]; vm_compute; reflexivity.
  - vm_compute. lia.
Defined.

(** The search request is the last thing [__call__] does: a call that
    raises has sent no search, and a call that returns has sent exactly one,
    as its last request and after at most one listing, and returns the data
    of that search. *)
Theorem search_sent_last_or_never (ts : ThoughtSpot) (casefold : string -> string)
    (is_valid_guid : pyval -> bool) (query : string) (worksheet table view : option string) :
  match __call__ ts casefold is_valid_guid query worksheet table view with
  | (sent, Raise _) => forallb (fun r => negb (is_SearchData r)) sent = true
  | (sent, Return data) =>
      exists before guid,
        sent = before ++ [SearchData query guid "FULL"]
        /\ forallb (fun r => negb (is_SearchData r)) before = true
        /\ length before <= 1
        /\ data = searchdata ts query guid "FULL"
  end.
Proof.
  unfold __call__.
  destruct (Nat.eqb (count_None _) 3); [reflexivity|].
  destruct (negb (Nat.eqb (count_None _) 2)); [reflexivity|].
  set (guid := py_or _ _).
  destruct (is_valid_guid guid).
  - exists [], guid. simpl. auto.
  - unfold resolve_name.
    destruct (match headers (metadata_list ts (search_request guid)) with
              | [] => _
              | _ :: _ => _
              end) as [guid'|e].
    + exists [MetadataList (search_request guid)], guid'. simpl. auto.
    + reflexivity.
Qed.

End SearchOutcomes.


(** ** Permissions, dependents and the lists of ids *)

Module MiddlewareFacts.
Import Util Metadata Fixtures Notions.

(** *** The table of [permissions] *)

(** The table of [permissions] maps every key it has to one of the four
    metadata types, and maps each of the four to itself. *)
Theorem types_table_closed :
  (forall k t : string,
     types_getitem k = Return t ->
     In t ["LOGICAL_COLUMN"; "QUESTION_ANSWER_BOOK"; "PINBOARD_ANSWER_BOOK"; "LOGICAL_TABLE"])
  /\ types_getitem "LOGICAL_COLUMN" = Return "LOGICAL_COLUMN"
  /\ types_getitem "QUESTION_ANSWER_BOOK" = Return "QUESTION_ANSWER_BOOK"
  /\ types_getitem "PINBOARD_ANSWER_BOOK" = Return "PINBOARD_ANSWER_BOOK"
  /\ types_getitem "LOGICAL_TABLE" = Return "LOGICAL_TABLE".
Proof.
  split; [|repeat split].
  intros k t Hk. unfold types_getitem in Hk.
  destruct (List.find _ types) as [kv|] eqn:E; [|discriminate].
  apply List.find_some in E as [Hin _]. inversion Hk; subst t. clear Hk.
  unfold types in Hin. simpl in Hin.
  repeat (destruct Hin as [ <- | Hin ]; [simpl; tauto|]).
  destruct Hin.
Qed.

Lemma types_table_closed_witness :
  In "LOGICAL_TABLE"
    ["LOGICAL_COLUMN"; "QUESTION_ANSWER_BOOK"; "PINBOARD_ANSWER_BOOK"; "LOGICAL_TABLE"]
  /\ types_getitem "LOGICAL_TABLE" = Return "LOGICAL_TABLE".
Proof.
  split.
  - exact (proj1 types_table_closed "WORKSHEET" "LOGICAL_TABLE" eq_refl).
  - exact (proj2 (proj2 (proj2 (proj2 types_table_closed)))).
Defined.

Lemma types_getitem_unknown (k : string) :
  Forall (fun kv => fst kv <> k) types -> types_getitem k = Raise (KeyError k).
Proof.
  intros H. unfold types_getitem.
  destruct (List.find _ types) as [kv|] eqn:E; [|reflexivity].
  apply List.find_some in E as [Hin Heq]. apply String.eqb_eq in Heq.
  rewrite Forall_forall in H. apply list_elem_of_In in Hin. by destruct (H kv Hin).
Qed.

(** *** [permissions] *)

Lemma collect_ids (users : list dict) :
  forall (acc ids : list pyval),
    for_each (fun acc user => let! i := getitem user "id" in Return (acc ++ [i])) users acc
    = Return ids ->
    forall v, v ∈ ids <-> v ∈ acc \/ exists u, u ∈ users /\ u !! "id" = Some v.
Proof.
  induction users as [|u users IH]; intros acc ids H v; cbn [for_each] in H.
  - inversion H; subst. split; [auto|]. intros [?|(u & Hu & _)]; [done|].
    by apply elem_of_nil in Hu.
  - unfold getitem in H. destruct (u !! "id") as [i|] eqn:Hi; [|discriminate].
    cbn [Py.bind] in H. rewrite (IH _ _ H v), elem_of_app, list_elem_of_singleton.
    split.
    + intros [[?| ->]|(u' & Hu' & Hv)]; [by left| |].
      * right. exists u. split; [apply elem_of_cons; by left|done].
      * right. exists u'. split; [apply elem_of_cons; by right|done].
    + intros [?|(u' & Hu' & Hv)]; [by left; left|].
      apply elem_of_cons in Hu' as [->|Hu'].
      * left. right. congruence.
      * right. eauto.
Qed.

Lemma for_each_raise_first {S A : Type} (f : S -> A -> result S) (c : A) (cs : list A)
    (st : S) (e : exn) :
  f st c = Raise e -> for_each f (c :: cs) st = Raise e.
Proof. intros H. cbn [for_each]. by rewrite H. Qed.

Lemma chunks_cons {A : Type} (x : A) (l : list A) (n : nat) :
  chunks (x :: l) n = take n (x :: l) :: chunks_aux (length l) (drop n (x :: l)) n.
Proof. reflexivity. Qed.

(** What [permissions] returns, when it returns. *)
Lemma permissions_returns_inv (ts : ThoughtSpot) (guids : list GUID)
    (type_ permission_type : Enum) (n : nat) (sent : list request) (rows : list dict) :
  permissions ts guids type_ permission_type n = Return (sent, rows) ->
  exists (user_guids : list pyval) (t : string),
    (forall v, v ∈ user_guids <-> exists u, u ∈ user_all ts /\ u !! "id" = Some v)
    /\ rows = flat_map
                (fun chunk =>
                   sharing_rows permission_type user_guids
                     (metadata_permissions ts t chunk (value permission_type)))
                (chunks guids n).
Proof.
  intros H. pose proof H as H0. unfold permissions in H.
  destruct (for_each _ (user_all ts) []) as [user_guids|e] eqn:Hu; [|discriminate].
  cbn [Py.bind] in H. exists user_guids.
  assert (forall v, v ∈ user_guids <-> exists u, u ∈ user_all ts /\ u !! "id" = Some v) as Hids.
  { intros v. rewrite (collect_ids _ _ _ Hu v). split; [|by right].
    intros [Hv|?]; [by apply elem_of_nil in Hv|done]. }
  destruct (types_getitem (value type_)) as [t|e] eqn:Ht.
  - exists t. split; [exact Hids|].
    rewrite (ChunkedFacts.permissions_eq ts guids type_ permission_type n t user_guids Ht Hu)
      in H0.
    by inversion H0.
  - exists "". split; [exact Hids|].
    destruct (chunks guids n) as [|c cs].
    + cbn [for_each] in H. by inversion H.
    + rewrite (for_each_raise_first _ c cs _ e) in H; [discriminate|reflexivity].
Qed.

Lemma sharing_row_user (permission_type : PermissionType) (user_guids : list pyval)
    (principal : GUID) (permission : Permission) :
  PStr principal ∈ user_guids ->
  let row := sharing_row permission_type user_guids principal permission in
  row !! "shared_to_user_guid" = Some (PStr principal)
  /\ row !! "shared_to_group_guid" = None
  /\ row !! "permission_type" = Some (PStr (value permission_type))
  /\ row !! "object_guid" = Some (topLevelObjectId permission)
  /\ row !! "share_mode" = Some (shareMode permission).
Proof.
  intros H row. subst row. unfold sharing_row. rewrite bool_decide_eq_true_2 by exact H.
  repeat split; vm_compute; reflexivity.
Qed.

Lemma sharing_row_group (permission_type : PermissionType) (user_guids : list pyval)
    (principal : GUID) (permission : Permission) :
  PStr principal ∉ user_guids ->
  let row := sharing_row permission_type user_guids principal permission in
  row !! "shared_to_group_guid" = Some (PStr principal)
  /\ row !! "shared_to_user_guid" = None
  /\ row !! "permission_type" = Some (PStr (value permission_type))
  /\ row !! "object_guid" = Some (topLevelObjectId permission)
  /\ row !! "share_mode" = Some (shareMode permission).
Proof.
  intros H row. subst row. unfold sharing_row. rewrite bool_decide_eq_false_2 by exact H.
  repeat split; vm_compute; reflexivity.
Qed.

(** Every row [permissions] returns names its grantee under exactly one
    of the keys "shared_to_user_guid" and "shared_to_group_guid": the first
    when the grantee is the id of a user of [ts.user.all()], the second
    otherwise; and it carries the permission type asked for. *)
Theorem permissions_row_one_grantee_key (ts : ThoughtSpot) (guids : list GUID)
    (type_ permission_type : Enum) (n : nat) (sent : list request) (rows : list dict)
    (row : dict)
    (Hrun : permissions ts guids type_ permission_type n = Return (sent, rows))
    (Hrow : In row rows) :
  row !! "permission_type" = Some (PStr (value permission_type))
  /\ exists principal : GUID,
       ((exists u, u ∈ user_all ts /\ u !! "id" = Some (PStr principal))
        /\ row !! "shared_to_user_guid" = Some (PStr principal)
        /\ row !! "shared_to_group_guid" = None)
       \/ ((~ exists u, u ∈ user_all ts /\ u !! "id" = Some (PStr principal))
           /\ row !! "shared_to_group_guid" = Some (PStr principal)
           /\ row !! "shared_to_user_guid" = None).
Proof.
  apply permissions_returns_inv in Hrun as (user_guids & t & Hids & ->).
  apply in_flat_map in Hrow as (chunk & _ & Hrow).
  unfold sharing_rows in Hrow.
  apply in_flat_map in Hrow as ([object_id data] & _ & Hrow).
  apply in_map_iff in Hrow as ([principal permission] & <- & _).
  destruct (decide (PStr principal ∈ user_guids)) as [Hin|Hout].
  - destruct (sharing_row_user permission_type user_guids principal permission Hin)
      as (Hu & Hg & Hp & _).
    split; [exact Hp|]. exists principal. left. split; [by apply Hids|]. auto.
  - destruct (sharing_row_group permission_type user_guids principal permission Hout)
      as (Hg & Hu & Hp & _).
    split; [exact Hp|]. exists principal. right.
    split; [intros Hex; by apply Hout, Hids|]. auto.
Qed.

Lemma permissions_row_one_grantee_key_witness :
  exists row : dict,
    row !! "permission_type" = Some (PStr "DEFINED")
    /\ row !! "shared_to_group_guid" = Some (PStr "g1")
    /\ exists principal : GUID,
         ((exists u, u ∈ user_all sharing_server /\ u !! "id" = Some (PStr principal))
          /\ row !! "shared_to_user_guid" = Some (PStr principal)
          /\ row !! "shared_to_group_guid" = None)
         \/ ((~ exists u, u ∈ user_all sharing_server /\ u !! "id" = Some (PStr principal))
             /\ row !! "shared_to_group_guid" = Some (PStr principal)
             /\ row !! "shared_to_user_guid" = None).
Proof.
  destruct (permissions sharing_server ["o1"] {| value := "WORKSHEET" |}
              {| value := "DEFINED" |} 15) as [[sent rows]|e] eqn:E;
    [|vm_compute in E; discriminate].
  assert (rows = [sharing_row {| value := "DEFINED" |} [PStr "u1"; PStr "u2"] "u1"
                    {| topLevelObjectId := PStr "o1"; shareMode := PStr "MODIFY" |};
                  sharing_row {| value := "DEFINED" |} [PStr "u1"; PStr "u2"] "g1"
                    {| topLevelObjectId := PStr "o1"; shareMode := PStr "READ_ONLY" |}])
    as Hrows.
  { vm_compute in E. injection E as _ <-. vm_compute. reflexivity. }
  eexists. split; [|split];
    [| |exact (proj2 (permissions_row_one_grantee_key sharing_server ["o1"]
                       {| value := "WORKSHEET" |} {| value := "DEFINED" |} 15 sent rows _ E
                       ltac:(rewrite Hrows; right; left; reflexivity)))].
  - vm_compute. reflexivity.
  - vm_compute. reflexivity.
Defined.

(** A type that is no key of the table makes [permissions] raise
    [KeyError] as soon as there is an id to ask about; with no id at all
    the table is never read and the result is empty. *)
Theorem permissions_unknown_type (ts : ThoughtSpot) (guids : list GUID)
    (type_ permission_type : Enum) (n : nat) (user_guids : list pyval)
    (Hunknown : Forall (fun kv => fst kv <> value type_) types)
    (Husers : for_each (fun acc user => let! i := getitem user "id" in Return (acc ++ [i]))
                (user_all ts) [] = Return user_guids) :
  (guids = [] -> permissions ts guids type_ permission_type n = Return ([], []))
  /\ (guids <> [] ->
      permissions ts guids type_ permission_type n = Raise (KeyError (value type_))).
Proof.
  apply types_getitem_unknown in Hunknown. unfold permissions. rewrite Husers.
  cbn [Py.bind]. split.
  - intros ->. reflexivity.
  - intros Hne. destruct guids as [|g guids]; [congruence|].
    rewrite chunks_cons. apply for_each_raise_first. by rewrite Hunknown.
Qed.

Lemma permissions_unknown_type_witness :
  permissions sharing_server [] {| value := "TAG" |} {| value := "DEFINED" |} 15
  = Return ([], [])
  /\ permissions sharing_server ["o1"] {| value := "TAG" |} {| value := "DEFINED" |} 15
     = Raise (KeyError "TAG").
Proof.
  assert (Forall (fun kv : string * string => fst kv <> "TAG") types) as H.
  { unfold types. repeat constructor; discriminate. }
  split.
  - exact (proj1 (permissions_unknown_type sharing_server [] {| value := "TAG" |}
                    {| value := "DEFINED" |} 15 [PStr "u1"; PStr "u2"] H eq_refl) eq_refl).
  - apply (proj2 (permissions_unknown_type sharing_server ["o1"] {| value := "TAG" |}
                    {| value := "DEFINED" |} 15 [PStr "u1"; PStr "u2"] H eq_refl)).
    discriminate.
Defined.

(** *** [dependents] *)

Lemma dependents_columns_eq (ts : ThoughtSpot) (guids : list GUID) (for_columns : bool)
    (n : nat) :
  dependents ts guids for_columns true n
  = (fst (columns ts guids false 50)
     ++ map (fun chunk => DependencyListDependents chunk "LOGICAL_COLUMN")
          (chunks (map (fun column => id (header column)) (snd (columns ts guids false 50))) n),
     flat_map (fun chunk => dependent_rows (list_dependents ts chunk "LOGICAL_COLUMN"))
       (chunks (map (fun column => id (header column)) (snd (columns ts guids false 50))) n)).
Proof.
  unfold dependents.
  destruct (columns ts guids false 50) as [l cols].
  rewrite (ChunkedFacts.fold_left_log
             (fun chunk => DependencyListDependents chunk "LOGICAL_COLUMN")
             (fun chunk => dependent_rows (list_dependents ts chunk "LOGICAL_COLUMN"))).
  reflexivity.
Qed.

(** With [include_columns], [dependents] first asks [columns] for the
    columns of the ids given (hidden ones left out, 50 ids to a chunk), and
    then asks for the dependents of the ids of those columns, chunk by
    chunk, as "LOGICAL_COLUMN", whatever [for_columns] says; when [columns]
    finds no column there is nothing to ask about and the result is empty. *)
Theorem dependents_of_columns (ts : ThoughtSpot) (guids : list GUID) (for_columns : bool)
    (n : nat) :
  let cols := columns ts guids false 50 in
  let ids := map (fun column => id (header column)) (snd cols) in
  dependents ts guids for_columns true n
  = (fst cols
     ++ map (fun chunk => DependencyListDependents chunk "LOGICAL_COLUMN") (chunks ids n),
     flat_map (fun chunk => dependent_rows (list_dependents ts chunk "LOGICAL_COLUMN"))
       (chunks ids n))
  /\ dependents ts guids true true n = dependents ts guids false true n
  /\ (snd cols = [] -> snd (dependents ts guids for_columns true n) = []).
Proof.
  intros cols ids. subst ids cols. split; [apply dependents_columns_eq|]. split.
  - by rewrite !dependents_columns_eq.
  - intros Hnone. rewrite dependents_columns_eq, Hnone. reflexivity.
Qed.

Lemma dependents_rows_inv (ts : ThoughtSpot) (guids : list GUID)
    (for_columns include_columns : bool) (n : nat) :
  exists (ids : list GUID) (type_ : string),
    snd (dependents ts guids for_columns include_columns n)
    = flat_map (fun chunk => dependent_rows (list_dependents ts chunk type_)) (chunks ids n)
    /\ forall chunk, In chunk (chunks ids n) ->
                     In (DependencyListDependents chunk type_)
                        (fst (dependents ts guids for_columns include_columns n)).
Proof.
  destruct include_columns.
  - eexists _, "LOGICAL_COLUMN". rewrite dependents_columns_eq. simpl.
    split; [reflexivity|]. intros chunk Hin. apply in_or_app. right.
    apply in_map_iff. eauto.
  - eexists guids, _. rewrite ChunkedFacts.dependents_eq. simpl.
    split; [reflexivity|]. intros chunk Hin. apply in_map_iff. eauto.
Qed.

(** Every row [dependents] returns is a header of a response to one of
    the requests sent, merged over the injected "parent_guid" and "type":
    every field of the header keeps the header's value, and the injected
    fields show only where the header has no such field. *)
Theorem dependents_row_keeps_header (ts : ThoughtSpot) (guids : list GUID)
    (for_columns include_columns : bool) (n : nat) (row : dict)
    (Hrow : In row (snd (dependents ts guids for_columns include_columns n))) :
  exists (chunk : list GUID) (type_ : string) (parent_guid dependency_type : string)
         (all_dependencies : list (string * list dict)) (headers_ : list dict)
         (header_ : dict),
    In (DependencyListDependents chunk type_)
       (fst (dependents ts guids for_columns include_columns n))
    /\ In (parent_guid, all_dependencies) (list_dependents ts chunk type_)
    /\ In (dependency_type, headers_) all_dependencies
    /\ In header_ headers_
    /\ (forall k v, header_ !! k = Some v -> row !! k = Some v)
    /\ (header_ !! "parent_guid" = None -> row !! "parent_guid" = Some (PStr parent_guid))
    /\ (header_ !! "type" = None -> row !! "type" = Some (PStr dependency_type)).
Proof.
  destruct (dependents_rows_inv ts guids for_columns include_columns n)
    as (ids & type_ & Hrows & Hsent).
  rewrite Hrows in Hrow. apply in_flat_map in Hrow as (chunk & Hchunk & Hrow).
  unfold dependent_rows in Hrow.
  apply in_flat_map in Hrow as ([parent_guid all_dependencies] & Hparent & Hrow).
  apply in_flat_map in Hrow as ([dependency_type headers_] & Hdep & Hrow).
  apply in_map_iff in Hrow as (header_ & <- & Hheader).
  exists chunk, type_, parent_guid, dependency_type, all_dependencies, headers_, header_.
  split; [by apply Hsent|]. split; [exact Hparent|]. split; [exact Hdep|].
  split; [exact Hheader|]. unfold merge_over. split; [|split].
  - intros k v Hk. by apply lookup_union_Some_l.
  - intros Hnone. rewrite lookup_union_r by exact Hnone. apply lookup_insert_eq.
  - intros Hnone. rewrite lookup_union_r by exact Hnone.
    rewrite lookup_insert_ne by discriminate. apply lookup_singleton_eq.
Qed.

Lemma dependents_row_keeps_header_witness :
  exists (chunk : list GUID) (type_ : string) (parent_guid dependency_type : string)
         (all_dependencies : list (string * list dict)) (headers_ : list dict)
         (header_ : dict),
    In (DependencyListDependents chunk type_)
       (fst (dependents sharing_server ["t1"] false false 50))
    /\ In (parent_guid, all_dependencies) (list_dependents sharing_server chunk type_)
    /\ In (dependency_type, headers_) all_dependencies
    /\ In header_ headers_
    /\ (forall k v, header_ !! k = Some v ->
          merge_over {[ "parent_guid" := PStr "t1"; "type" := PStr "QUESTION_ANSWER_BOOK" ]}
            (<[ "type" := PStr "WORKSHEET" ]> (a_header "w1" "Sheet" "w1" "bob")) !! k
          = Some v)
    /\ (header_ !! "parent_guid" = None ->
        merge_over {[ "parent_guid" := PStr "t1"; "type" := PStr "QUESTION_ANSWER_BOOK" ]}
          (<[ "type" := PStr "WORKSHEET" ]> (a_header "w1" "Sheet" "w1" "bob")) !! "parent_guid"
        = Some (PStr parent_guid))
    /\ (header_ !! "type" = None ->
        merge_over {[ "parent_guid" := PStr "t1"; "type" := PStr "QUESTION_ANSWER_BOOK" ]}
          (<[ "type" := PStr "WORKSHEET" ]> (a_header "w1" "Sheet" "w1" "bob")) !! "type"
        = Some (PStr dependency_type)).
Proof.
  apply (dependents_row_keeps_header sharing_server ["t1"] false false 50).
  rewrite ChunkedFacts.dependents_eq. simpl. right. left. reflexivity.
Defined.

(** *** [map_subtype_to_type] and [get_edoc_object_list] *)

(** When "LOGICAL_TABLE" is not itself the name of a subtype,
    [map_subtype_to_type] never returns the name of a subtype; mapping twice
    is mapping once, and [None] is mapped to [None]. *)
Theorem map_subtype_never_a_subtype (en : Enums) (subtype : pyval)
    (Hlt : PStr (value (logical_table en))
           ∉ map (fun t => PStr (value t)) (MetadataObjectSubtype en)) :
  (map_subtype_to_type en subtype
   ∉ map (fun t => PStr (value t)) (MetadataObjectSubtype en))
  /\ map_subtype_to_type en (map_subtype_to_type en subtype) = map_subtype_to_type en subtype
  /\ map_subtype_to_type en PNone = PNone.
Proof.
  unfold map_subtype_to_type. split; [|split].
  - destruct (decide (subtype ∈ map (fun t => PStr (value t)) (MetadataObjectSubtype en)))
      as [Hin|Hout].
    + by rewrite (bool_decide_eq_true_2 _ Hin).
    + by rewrite (bool_decide_eq_false_2 _ Hout).
  - destruct (decide (subtype ∈ map (fun t => PStr (value t)) (MetadataObjectSubtype en)))
      as [Hin|Hout].
    + rewrite (bool_decide_eq_true_2 _ Hin). by rewrite (bool_decide_eq_false_2 _ Hlt).
    + by rewrite !(bool_decide_eq_false_2 _ Hout).
  - rewrite bool_decide_eq_false_2; [reflexivity|].
    intros Hin. apply list_elem_of_In, in_map_iff in Hin as (t & Ht & _). discriminate.
Qed.

Lemma map_subtype_never_a_subtype_witness :
  map_subtype_to_type answers_only (PStr "WORKSHEET") = PStr "LOGICAL_TABLE"
  /\ map_subtype_to_type answers_only (PStr "LOGICAL_TABLE") = PStr "LOGICAL_TABLE".
Proof.
  assert (PStr (value (logical_table answers_only))
          ∉ map (fun t => PStr (value t)) (MetadataObjectSubtype answers_only)) as H.
  { simpl. intros Hin. apply list_elem_of_singleton in Hin. discriminate. }
  destruct (map_subtype_never_a_subtype answers_only (PStr "WORKSHEET") H) as (_ & Hidem & _).
  split; [reflexivity|]. exact Hidem.
Defined.

Section edoc_invariant.
Variable ts : ThoughtSpot.
Variable en : Enums.
Variable guids : list GUID.

(** Every record mapped so far comes from a header listed so far. *)
Let mapped_ok (st : list request * list dict) : Prop :=
  Forall (fun r => exists metadata_type d i,
                     In metadata_type (DownloadableContent en)
                     /\ (value metadata_type, d) ∈ fetched ts (fst st)
                     /\ d !! "id" = Some i
                     /\ r = edoc_record en metadata_type d i)
         (snd st).

Lemma edoc_map_inv (metadata_type : Enum) (P : dict -> Prop) (ds : list dict) :
  forall (mapped mapped' : list dict),
    for_each (edoc_map en metadata_type) ds mapped = Return mapped' ->
    Forall P mapped ->
    (forall d i, d ∈ ds -> d !! "id" = Some i -> P (edoc_record en metadata_type d i)) ->
    Forall P mapped'.
Proof.
  induction ds as [|d ds IH]; intros mapped mapped' H Hm Hds; cbn [for_each] in H.
  - by inversion H; subst.
  - unfold edoc_map at 1 in H. unfold getitem in H.
    destruct (d !! "id") as [i|] eqn:Hi; [|discriminate]. cbn [Py.bind] in H.
    assert (P (edoc_record en metadata_type d i)) as Hd.
    { apply Hds; [apply elem_of_cons; by left|exact Hi]. }
    assert (forall d' i', d' ∈ ds -> d' !! "id" = Some i' ->
                          P (edoc_record en metadata_type d' i')) as Hrest.
    { intros d' i' Hin. apply Hds. apply elem_of_cons. by right. }
    unfold edoc_record in Hd.
    destruct (String.eqb (value metadata_type) (value (logical_table en)));
      cbn [Py.bind] in H;
      (eapply IH; [exact H| |exact Hrest]);
      apply Forall_app; split; auto.
Qed.

Lemma mapped_ok_more (l l' : list request) (mapped : list dict) :
  mapped_ok (l, mapped) -> mapped_ok (l ++ l', mapped).
Proof.
  unfold mapped_ok. simpl. intros H. eapply Forall_impl; [exact H|]. clear H.
  intros r (mt & d & i & Hmt & Hin & Hid & Hr). exists mt, d, i.
  split; [exact Hmt|]. split; [|auto].
  unfold fetched. rewrite flat_map_app. apply elem_of_app. by left.
Qed.

Lemma edoc_page_loop_inv (fuel : nat) (metadata_type : Enum) :
  In metadata_type (DownloadableContent en) ->
  forall (o : nat) (st st' : list request * list dict),
    mapped_ok st ->
    edoc_page_loop ts en guids fuel metadata_type o st = Some (Return st') ->
    mapped_ok st'.
Proof.
  intros Hmt. induction fuel as [|fuel IH]; intros o st st' Hok H; [discriminate|].
  cbn [edoc_page_loop] in H.
  destruct (for_each _ _ (snd st)) as [mapped|e] eqn:E; [|discriminate].
  assert (mapped_ok (fst st ++ [MetadataList (edoc_request guids metadata_type o)], mapped))
    as Hok'.
  { unfold mapped_ok. cbn [fst snd].
    eapply (edoc_map_inv metadata_type _ _ _ _ E).
    - destruct st as [l m]. exact (mapped_ok_more l _ m Hok).
    - intros d i Hd Hi. exists metadata_type, d, i.
      split; [exact Hmt|]. split; [|auto].
      rewrite AggregationFacts.fetched_snoc. apply elem_of_app. right.
      apply list_elem_of_fmap. exists d. split; [reflexivity|exact Hd]. }
  destruct (isLastBatch _).
  - by inversion H; subst.
  - by eapply IH.
Qed.

Lemma edoc_types_loop_inv (fuel : nat) (members : list Enum) :
  (forall m, In m members -> In m (DownloadableContent en)) ->
  forall (st st' : list request * list dict),
    mapped_ok st ->
    edoc_types_loop ts en guids fuel members st = Some (Return st') ->
    mapped_ok st'.
Proof.
  induction members as [|m members IH]; intros Hsub st st' Hok H; cbn [edoc_types_loop] in H.
  - by inversion H; subst.
  - destruct (edoc_page_loop ts en guids fuel m 0 st) as [[[l mapped]|e]|] eqn:E;
      try discriminate.
    apply edoc_page_loop_inv in E; [|apply Hsub; by left|exact Hok].
    eapply IH; [|exact (mapped_ok_more l [MetadataList (edoc_final_request guids)] mapped E)|exact H].
    intros m' Hm'. apply Hsub. by right.
Qed.

(** Every record [get_edoc_object_list] returns has the two fields "id" and
    "type" and no other: the id is that of a header listed in the run under
    a member of [DownloadableContent], and the type is the value of that
    member, or, under the member for logical tables, what
    [map_subtype_to_type] makes of the header's own "type" ([None] when the
    header has none). *)
Theorem edoc_records_shape (fuel : nat) (sent : list request) (mapped : list dict) (r : dict)
    (Hrun : get_edoc_object_list ts en guids fuel = Some (Return (sent, mapped)))
    (Hr : In r mapped) :
  exists (metadata_type : Enum) (d : dict) (i : pyval),
    In metadata_type (DownloadableContent en)
    /\ (value metadata_type, d) ∈ fetched ts sent
    /\ d !! "id" = Some i
    /\ r = {[ "id" := i;
              "type" := if String.eqb (value metadata_type) (value (logical_table en))
                        then map_subtype_to_type en (default PNone (d !! "type"))
                        else PStr (value metadata_type) ]}.
Proof.
  unfold get_edoc_object_list in Hrun. destruct guids as [|g gs] eqn:Hg.
  - inversion Hrun; subst. destruct Hr.
  - rewrite <- Hg in Hrun.
    apply edoc_types_loop_inv in Hrun; [|auto|constructor].
    unfold mapped_ok in Hrun. simpl in Hrun. rewrite Forall_forall in Hrun.
    apply Hrun. by apply list_elem_of_In.
Qed.
End edoc_invariant.

Lemma edoc_records_shape_witness :
  exists (metadata_type : Enum) (d : dict) (i : pyval),
    In metadata_type (DownloadableContent answers_only)
    /\ d !! "id" = Some i
    /\ ({[ "id" := PStr "a3"; "type" := PStr "QUESTION_ANSWER_BOOK" ]} : dict)
       = {[ "id" := i;
            "type" := if String.eqb (value metadata_type) (value (logical_table answers_only))
                      then map_subtype_to_type answers_only (default PNone (d !! "type"))
                      else PStr (value metadata_type) ]}.
Proof.
  destruct (get_edoc_object_list paging_server answers_only ["a0"] 2)
    as [[[sent mapped]|e]|] eqn:E;
    [|vm_compute in E; discriminate|vm_compute in E; discriminate].
  destruct (edoc_records_shape paging_server answers_only ["a0"] 2 sent mapped
              {[ "id" := PStr "a3"; "type" := PStr "QUESTION_ANSWER_BOOK" ]} E)
    as (mt & d & i & H1 & _ & H2 & H3).
  - vm_compute in E. injection E as _ <-. do 4 right. left. vm_compute. reflexivity.
  - exists mt, d, i. auto.
Defined.

(** *** [get_object_ids_with_tags] *)

Lemma id_among_app (a b : list (string * dict)) (k : pyval) :
  id_among (a ++ b) k <-> id_among a k \/ id_among b k.
Proof.
  unfold id_among. split.
  - intros (t & d & Hin & Hid). apply elem_of_app in Hin as [Hin|Hin]; [left|right]; eauto.
  - intros [(t & d & Hin & Hid)|(t & d & Hin & Hid)]; exists t, d;
      (split; [apply elem_of_app; auto|exact Hid]).
Qed.

Section tagged_invariant.
Variable ts : ThoughtSpot.
Variable en : Enums.
Variable tags : list string.

(** The ids collected so far are the ids of the headers listed so far. *)
Let ids_ok (st : list request * list pyval) : Prop :=
  forall i, i ∈ snd st <-> id_among (fetched ts (fst st)) i.

Lemma tags_page_loop_inv (fuel : nat) (metadata_type : Enum) :
  forall (o : nat) (st st' : list request * list pyval),
    ids_ok st ->
    tags_page_loop ts tags fuel metadata_type o st = Some (Return st') ->
    ids_ok st'.
Proof.
  induction fuel as [|fuel IH]; intros o st st' Hok H; [discriminate|].
  cbn [tags_page_loop] in H.
  destruct (for_each tags_collect _ (snd st)) as [object_ids|e] eqn:E; [|discriminate].
  assert (ids_ok (fst st ++ [MetadataList (tags_request tags metadata_type o)], object_ids))
    as Hok'.
  { intros i. cbn [fst snd]. rewrite AggregationFacts.fetched_snoc, id_among_app.
    rewrite (collect_ids _ _ _ E i), (Hok i). apply or_iff_compat_l.
    unfold id_among. split.
    - intros (d & Hd & Hi). exists (value metadata_type), d. split; [|exact Hi].
      apply list_elem_of_fmap. exists d. split; [reflexivity|exact Hd].
    - intros (t & d & Hd & Hi). exists d. split; [|exact Hi].
      apply list_elem_of_fmap in Hd as (d' & Heq & Hd'). by inversion Heq; subst. }
  destruct (isLastBatch _).
  - by inversion H; subst.
  - by eapply IH.
Qed.

Lemma tags_types_loop_inv (fuel : nat) (members : list Enum) :
  forall (st st' : list request * list pyval),
    ids_ok st ->
    tags_types_loop ts tags fuel members st = Some (Return st') ->
    ids_ok st'.
Proof.
  induction members as [|m members IH]; intros st st' Hok H; cbn [tags_types_loop] in H.
  - by inversion H; subst.
  - destruct (tags_page_loop ts tags fuel m 0 st) as [[st1|e]|] eqn:E; try discriminate.
    apply tags_page_loop_inv in E; [|exact Hok]. by eapply IH.
Qed.

(** [get_object_ids_with_tags] returns every id once: the ids it returns
    are exactly the ids of the headers listed in the run, and none of them
    comes twice, however often the platform listed it. *)
Theorem tagged_ids_once (fuel : nat) (sent : list request) (ids : list pyval)
    (Hrun : get_object_ids_with_tags ts en tags fuel = Some (Return (sent, ids))) :
  NoDup ids
  /\ forall i, i ∈ ids <-> exists t d, (t, d) ∈ fetched ts sent /\ d !! "id" = Some i.
Proof.
  unfold get_object_ids_with_tags in Hrun.
  destruct (tags_types_loop ts tags fuel (DownloadableContent en) ([], []))
    as [[[l object_ids]|e]|] eqn:E; try discriminate.
  inversion Hrun; subst. clear Hrun.
  apply tags_types_loop_inv in E.
  - split; [apply NoDup_elements|].
    intros i. rewrite elem_of_elements, elem_of_list_to_set. exact (E i).
  - intros i. simpl. split; [intros Hi; by apply elem_of_nil in Hi|].
    intros (t & d & Hin & _). by apply elem_of_nil in Hin.
Qed.
End tagged_invariant.

Lemma tagged_ids_once_witness :
  match get_object_ids_with_tags paging_server answers_only ["q3"] 2 with
  | Some (Return (sent, ids)) =>
      NoDup ids
      /\ length ids = 4
      /\ length (fetched paging_server sent) = 5
  | _ => False
  end.
Proof.
  destruct (get_object_ids_with_tags paging_server answers_only ["q3"] 2)
    as [[[sent ids]|e]|] eqn:E;
    [|vm_compute in E; discriminate|vm_compute in E; discriminate].
  split; [exact (proj1 (tagged_ids_once paging_server answers_only ["q3"] 2 sent ids E))|].
  vm_compute in E. injection E as <- <-. split; vm_compute; reflexivity.
Defined.

End MiddlewareFacts.


(** ** The board and the other paths of a task *)

Module BoardFacts.
Import Layout Fixtures Notions.

(** A block that ends without an error, on a task bound to a display:
    [with] returns normally, with the time from [now_enter] to [now_exit]
    added to the total, the task stopped, and the glyph set to the success
    glyph unless the task is skipped. *)
Theorem normal_block_succeeds (t : WorkTask) (now_enter now_exit : Z)
    (body : WorkTask -> WorkTask * option exn) (t2 : WorkTask)
    (Hlive : is_Some (_live t))
    (Hbody : body (fst (__enter__ t now_enter)) = (t2, None))
    (Hstart : _started_at t2 = Some now_enter)
    (Hlive2 : is_Some (_live t2)) :
  snd (with_task t now_enter body now_exit) = Return tt
  /\ _total_duration (fst (with_task t now_enter body now_exit))
     = (_total_duration t2 + (now_exit - now_enter))%Z
  /\ _stopped (fst (with_task t now_enter body now_exit)) = true
  /\ status (fst (with_task t now_enter body now_exit))
     = (if _skipped t2 then status t2 else Some ":white_heavy_check_mark:").
Proof.
  destruct Hlive as [n Hn]. destruct Hlive2 as [n2 Hn2].
  unfold with_task.
  assert (snd (__enter__ t now_enter) = Return tt) as He.
  { unfold __enter__, live_refresh. simpl. by rewrite Hn. }
  destruct (__enter__ t now_enter) as [t1 r1]. simpl in He, Hbody. subst r1.
  rewrite Hbody. unfold __exit__, live_refresh. rewrite Hstart. simpl. rewrite Hn2.
  simpl. repeat split.
Qed.

Lemma normal_block_succeeds_witness :
  snd (with_task pending 100 (fun t => (t, None)) 250) = Return tt
  /\ _total_duration (fst (with_task pending 100 (fun t => (t, None)) 250)) = 150%Z
  /\ _stopped (fst (with_task pending 100 (fun t => (t, None)) 250)) = true
  /\ status (fst (with_task pending 100 (fun t => (t, None)) 250))
     = Some ":white_heavy_check_mark:".
Proof.
  exact (normal_block_succeeds pending 100 250 (fun t => (t, None))
           (fst (__enter__ pending 100))
           (ex_intro _ 0%nat eq_refl) eq_refl eq_refl (ex_intro _ 1%nat eq_refl)).
Defined.

(** A task with no display cannot be entered: [__enter__] raises
    [AttributeError] at the refresh, after it has set the running glyph and
    the start time, and the block of the [with] statement is never run:
    whatever the block is, the task is left running, not stopped. *)
Theorem unbound_task_never_runs (t : WorkTask) (now_enter now_exit : Z)
    (body : WorkTask -> WorkTask * option exn)
    (Hunbound : _live t = None) :
  with_task t now_enter body now_exit
  = ({| name := name t; description := description t; status := Some ":fire:";
        _live := None; _total_duration := _total_duration t;
        _started_at := Some now_enter; _skipped := _skipped t; _stopped := _stopped t |},
     Raise (AttributeError "refresh")).
Proof.
  unfold with_task, __enter__, live_refresh. simpl. rewrite Hunbound. reflexivity.
Qed.

Lemma unbound_task_never_runs_witness :
  snd (with_task unbound 100 (fun t => (skip t, Some (KeyError "boom"))) 250)
  = Raise (AttributeError "refresh")
  /\ status (fst (with_task unbound 100 (fun t => (skip t, Some (KeyError "boom"))) 250))
     = Some ":fire:".
Proof.
  rewrite (unbound_task_never_runs unbound 100 250
             (fun t => (skip t, Some (KeyError "boom"))) eq_refl).
  split; reflexivity.
Defined.

(** Once bound to a display, the same task can be entered. *)
Example bound_task_enters :
  snd (__enter__ (bind_display unbound 0) 100) = Return tt.
Proof. reflexivity. Qed.

(** The row of a task never raises, although [duration] alone raises on a
    task that was never started: before the start the cells of the start
    time and of the duration are blank, and from the start on the first of
    them is the formatted start time. *)
Theorem values_never_raises (strftime format_seconds : Z -> string) (t : WorkTask) (now : Z) :
  exists started_at_ duration_ : string,
    values strftime format_seconds t now
    = Return (status t, started_at_, duration_, description t)
    /\ (started_at t = None ->
        started_at_ = "" /\ duration_ = ""
        /\ (_stopped t = false -> exists msg, duration t now = Raise (TypeError msg)))
    /\ (forall s, started_at t = Some s -> started_at_ = strftime s).
Proof.
  unfold values, duration. destruct (started_at t) as [s|] eqn:E.
  - destruct (_stopped t); cbn [Py.bind]; eexists _, _;
      (split; [reflexivity|]); (split; [discriminate|]); intros s' [= <-]; reflexivity.
  - cbn [Py.bind]. exists "", "". split; [reflexivity|]. split; [|discriminate].
    intros _. split; [reflexivity|]. split; [reflexivity|].
    intros ->. eauto.
Qed.

(** Leaving a task that was never entered raises [TypeError], where the
    start time is subtracted; by then the glyph has been set (unless the
    task is skipped), while the total and the stopped flag are as they
    were. *)
Theorem exit_before_enter (t : WorkTask) (exc : option exn) (now : Z)
    (Hnever : _started_at t = None) :
  (exists msg, snd (__exit__ t exc now) = Raise (TypeError msg))
  /\ status (fst (__exit__ t exc now))
     = (if _skipped t then status t
        else Some (match exc with
                   | None => ":white_heavy_check_mark:"
                   | Some _ => ":cross_mark:"
                   end))
  /\ _total_duration (fst (__exit__ t exc now)) = _total_duration t
  /\ _stopped (fst (__exit__ t exc now)) = _stopped t.
Proof.
  unfold __exit__. rewrite Hnever. simpl. split; [eauto|]. auto.
Qed.

Lemma exit_before_enter_witness :
  (exists msg, snd (__exit__ pending None 250) = Raise (TypeError msg))
  /\ status (fst (__exit__ pending None 250)) = Some ":white_heavy_check_mark:"
  /\ _stopped (fst (__exit__ pending None 250)) = false.
Proof.
  destruct (exit_before_enter pending None 250 eq_refl) as (H1 & H2 & _ & H3).
  split; [exact H1|]. split; [exact H2|exact H3].
Defined.

(** *** The lookup by name *)

(** The lookup by name finds the first task of that name in the list,
    also when a later one has the same name; when no task has the name it
    raises [KeyError] with the name in the message. *)
Theorem lookup_first_of_name (work_items : list WorkTask) (task_name : string) :
  match __getitem__ work_items task_name with
  | Return t =>
      exists before after,
        work_items = before ++ t :: after
        /\ name t = task_name
        /\ Forall (fun u => name u <> task_name) before
  | Raise e =>
      e = KeyError ("no task found with name '" +:+ task_name +:+ "'")
      /\ Forall (fun u => name u <> task_name) work_items
  end.
Proof.
  induction work_items as [|u rest IH]; cbn [__getitem__].
  - split; [reflexivity|constructor].
  - destruct (String.eqb (name u) task_name) eqn:E.
    + apply String.eqb_eq in E. exists [], rest. split; [reflexivity|]. split; [exact E|].
      constructor.
    + apply String.eqb_neq in E.
      destruct (__getitem__ rest task_name) as [t|e].
      * destruct IH as (before & after & -> & Hn & Hb).
        exists (u :: before), after. split; [reflexivity|]. split; [exact Hn|].
        by constructor.
      * destruct IH as [-> Hall]. split; [reflexivity|]. by constructor.
Qed.

Lemma set_work_items_eq (self_live : nat) (items : list work_item) :
  forall current : list WorkTask,
    set_work_items self_live current items
    = current ++ map (fun item => match item with
                                  | Pair task_name description_ =>
                                      new_task task_name description_ (Some self_live)
                                  | Task t => t
                                  end) items.
Proof.
  unfold set_work_items. induction items as [|item items IH]; intros current; simpl.
  - by rewrite app_nil_r.
  - rewrite IH. by rewrite <- app_assoc.
Qed.

Lemma getitem_skip (before : list WorkTask) (rest : list WorkTask) (task_name : string) :
  Forall (fun u => name u <> task_name) before ->
  __getitem__ (before ++ rest) task_name = __getitem__ rest task_name.
Proof.
  induction 1 as [|u before Hu _ IH]; [reflexivity|].
  cbn [app __getitem__]. apply String.eqb_neq in Hu. by rewrite Hu.
Qed.

(** What is given to the board is found again under its name, unless an
    earlier entry has the same name: a pair of a name and a description as a
    pending task bound to the board (pending glyph, no start time, no
    duration), a task as the very task given, bound to a display or not.
    Entries already on the board stay in front of the new ones. *)
Theorem registered_item_found (self_live : nat) (current : list WorkTask)
    (before after : list work_item) (item : work_item)
    (Hcurrent : Forall (fun u => name u <> item_name item) current)
    (Hbefore : Forall (fun it => item_name it <> item_name item) before) :
  __getitem__ (set_work_items self_live current (before ++ item :: after)) (item_name item)
  = Return (match item with
            | Pair task_name description_ =>
                {| name := task_name; description := description_;
                   status := Some ":popcorn:"; _live := Some self_live;
                   _total_duration := 0; _started_at := None;
                   _skipped := false; _stopped := false |}
            | Task t => t
            end).
Proof.
  rewrite set_work_items_eq, map_app. cbn [map].
  rewrite getitem_skip by exact Hcurrent.
  rewrite getitem_skip.
  - cbn [__getitem__]. destruct item as [t|n d]; simpl; by rewrite String.eqb_refl.
  - induction Hbefore as [|it before Hit _ IH]; [constructor|].
    cbn [map]. constructor; [|exact IH]. by destruct it.
Qed.

Lemma registered_item_found_witness :
  __getitem__ (set_work_items 0 [] [Pair "sync" "Synchronise the tables"; Task unbound;
                                    Pair "load" "Load again"]) "load"
  = Return unbound.
Proof.
  apply (registered_item_found 0 [] [Pair "sync" "Synchronise the tables"]
           [Pair "load" "Load again"] (Task unbound)).
  - constructor.
  - repeat constructor. discriminate.
Defined.

End BoardFacts.

(** ** The tools of the command line *)

Module ToolsFacts.
Import Main Fixtures.

Lemma setup_tools_snoc {App : Type} (get_cs_tool : string -> Tool App)
    (paths : list PathEntry) (path : PathEntry) :
  _setup_tools App get_cs_tool (paths ++ [path])
  = (if String.eqb (path_name path) "__pycache__" || negb (is_dir path)
     then _setup_tools App get_cs_tool paths
     else if String.eqb (privacy (get_cs_tool (path_name path))) "unknown"
          then _setup_tools App get_cs_tool paths
          else (<[tool_name (get_cs_tool (path_name path)) := get_cs_tool (path_name path)]>
                  (fst (_setup_tools App get_cs_tool paths)),
                snd (_setup_tools App get_cs_tool paths)
                ++ [(tool_app (get_cs_tool (path_name path)),
                     tool_name (get_cs_tool (path_name path)))])).
Proof.
  unfold _setup_tools. rewrite fold_left_app. cbn [fold_left].
  destruct (fold_left _ paths (∅, [])) as [tools mounted].
  destruct (String.eqb (path_name path) "__pycache__" || negb (is_dir path)); [reflexivity|].
  destruct (String.eqb (privacy (get_cs_tool (path_name path))) "unknown"); reflexivity.
Qed.

(** [_setup_tools] mounts, in the order of the directory, the tool of
    every entry that is a directory, is not "__pycache__" and whose tool has
    a privacy other than "unknown", and nothing else; the tools it registers
    are the tools it mounts, each under its own name, and none of them has
    the privacy "unknown". *)
Theorem setup_tools_registry {App : Type} (get_cs_tool : string -> Tool App)
    (paths : list PathEntry) :
  (forall app n,
     (app, n) ∈ snd (_setup_tools App get_cs_tool paths)
     <-> exists path, path ∈ paths
                      /\ is_dir path = true
                      /\ path_name path <> "__pycache__"
                      /\ privacy (get_cs_tool (path_name path)) <> "unknown"
                      /\ app = tool_app (get_cs_tool (path_name path))
                      /\ n = tool_name (get_cs_tool (path_name path)))
  /\ (forall n, is_Some (fst (_setup_tools App get_cs_tool paths) !! n)
                <-> exists app, (app, n) ∈ snd (_setup_tools App get_cs_tool paths))
  /\ (forall n tool, fst (_setup_tools App get_cs_tool paths) !! n = Some tool ->
                     tool_name tool = n /\ privacy tool <> "unknown").
Proof.
  induction paths as [|path paths (IH1 & IH2 & IH3)] using rev_ind.
  - split; [|split].
    + intros app n. split; [intros H; by apply elem_of_nil in H|].
      intros (path & H & _). by apply elem_of_nil in H.
    + intros n. cbn. rewrite lookup_empty. split; [by intros [? ?]|].
      intros (app & H). by apply elem_of_nil in H.
    + intros n tool H. cbn in H. by rewrite lookup_empty in H.
  - rewrite setup_tools_snoc.
    destruct (String.eqb (path_name path) "__pycache__") eqn:Ecache; cbn [orb].
    { apply String.eqb_eq in Ecache. split; [|split]; [|exact IH2|exact IH3].
      intros app n. rewrite IH1. split.
      - intros (p & Hp & H). exists p. split; [apply elem_of_app; by left|exact H].
      - intros (p & Hp & Hd & Hn & H). apply elem_of_app in Hp as [Hp|Hp]; [eauto 10|].
        apply list_elem_of_singleton in Hp. subst p. by destruct Hn. }
    destruct (is_dir path) eqn:Edir; cbn [negb].
    2:{ split; [|split]; [|exact IH2|exact IH3].
        intros app n. rewrite IH1. split.
        - intros (p & Hp & H). exists p. split; [apply elem_of_app; by left|exact H].
        - intros (p & Hp & Hd & H). apply elem_of_app in Hp as [Hp|Hp]; [eauto 10|].
          apply list_elem_of_singleton in Hp. subst p. congruence. }
    destruct (String.eqb (privacy (get_cs_tool (path_name path))) "unknown") eqn:Epriv.
    { apply String.eqb_eq in Epriv. split; [|split]; [|exact IH2|exact IH3].
      intros app n. rewrite IH1. split.
      - intros (p & Hp & H). exists p. split; [apply elem_of_app; by left|exact H].
      - intros (p & Hp & Hd & Hn & Hu & H). apply elem_of_app in Hp as [Hp|Hp]; [eauto 10|].
        apply list_elem_of_singleton in Hp. subst p. by destruct Hu. }
    apply String.eqb_neq in Ecache, Epriv. cbn [fst snd].
    split; [|split].
    + intros app n. rewrite elem_of_app, IH1, list_elem_of_singleton. split.
      * intros [(p & Hp & H)|[= -> ->]].
        -- exists p. split; [apply elem_of_app; by left|exact H].
        -- exists path. split; [apply elem_of_app; right; by apply list_elem_of_singleton|].
           auto.
      * intros (p & Hp & Hd & Hn & Hu & -> & ->).
        apply elem_of_app in Hp as [Hp|Hp]; [left; eauto 10|].
        apply list_elem_of_singleton in Hp. subst p. by right.
    + intros n. rewrite lookup_insert_is_Some, IH2. split.
      * intros [<-|[_ (app & H)]].
        -- eexists. apply elem_of_app. right. by apply list_elem_of_singleton.
        -- exists app. apply elem_of_app. by left.
      * intros (app & H). apply elem_of_app in H as [H|H].
        -- destruct (decide (tool_name (get_cs_tool (path_name path)) = n)); [by left|].
           right. eauto.
        -- apply list_elem_of_singleton in H. inversion H. by left.
    + intros n tool H.
      destruct (decide (tool_name (get_cs_tool (path_name path)) = n)) as [<-|Hne].
      * rewrite lookup_insert_eq in H. inversion H; subst. auto.
      * rewrite lookup_insert_ne in H by exact Hne. by apply IH3.
Qed.

(** On the example directory: the two tools are mounted in directory
    order; the cache directory, the file and the tool of unknown privacy are
    not. *)
Example setup_tools_example :
  snd (_setup_tools string a_tool tools_dir)
  = [("archiver.app", "archiver"); ("searchable.app", "searchable")].
Proof. vm_compute. reflexivity. Qed.

End ToolsFacts.

(** ** The virtual environment and the change of directory *)

Module SystemFacts.
Import VirtualEnv Vendor Fixtures.

(** The shell is found exactly when the system is POSIX and SHELL is set
    to a string that is not empty, or the system is NT and COMSPEC is; on
    any other system, or with the variable unset or empty, [shell] raises
    [RuntimeError]. *)
Theorem shell_detected (sys : System) :
  match shell sys with
  | inr p =>
      exists s, s <> "" /\ p = Path_of sys s
                /\ ((os_name sys = "posix" /\ environ sys !! "SHELL" = Some s)
                    \/ (os_name sys <> "posix" /\ os_name sys = "nt"
                        /\ environ sys !! "COMSPEC" = Some s))
  | inl e =>
      e = RuntimeError "Unable to detect the current shell."
      /\ ((os_name sys = "posix" ->
           environ sys !! "SHELL" = None \/ environ sys !! "SHELL" = Some "")
          /\ (os_name sys = "nt" ->
              environ sys !! "COMSPEC" = None \/ environ sys !! "COMSPEC" = Some ""))
  end.
Proof.
  unfold shell.
  destruct (String.eqb (os_name sys) "posix") eqn:Ep.
  - apply String.eqb_eq in Ep.
    destruct (environ sys !! "SHELL") as [s|] eqn:Es.
    + destruct (String.eqb s "") eqn:E0.
      * apply String.eqb_eq in E0. subst s. split; [reflexivity|].
        split; [auto|]. intros Hnt. rewrite Hnt in Ep. discriminate.
      * apply String.eqb_neq in E0. exists s. auto.
    + split; [reflexivity|]. split; [auto|]. intros Hnt. rewrite Hnt in Ep. discriminate.
  - apply String.eqb_neq in Ep.
    destruct (String.eqb (os_name sys) "nt") eqn:En.
    + apply String.eqb_eq in En.
      destruct (environ sys !! "COMSPEC") as [s|] eqn:Es.
      * destruct (String.eqb s "") eqn:E0.
        -- apply String.eqb_eq in E0. subst s. split; [reflexivity|].
           split; [intros Hp; by destruct Ep|auto].
        -- apply String.eqb_neq in E0. exists s. split; [exact E0|]. split; [reflexivity|].
           right. auto.
      * split; [reflexivity|]. split; [intros Hp; by destruct Ep|auto].
    + apply String.eqb_neq in En. split; [reflexivity|].
      split; [intros Hp; by destruct Ep|intros Hn; by destruct En].
Qed.

(** [_get_source_command] never answers "source": the shell it compares
    with the names "fish", "csh" and "tcsh" is a [Path], which equals no
    string, so the answer is "." for every shell that is found, and the
    [RuntimeError] of [shell] otherwise. *)
Theorem source_command_is_dot (sys : System) :
  match shell sys with
  | inr _ => _get_source_command sys = inr "."
  | inl e => _get_source_command sys = inl e
  end.
Proof.
  unfold _get_source_command. destruct (shell sys) as [e|p]; reflexivity.
Qed.

(** Also for fish itself. *)
Example source_command_fish :
  shell fish_system = inr ["fish"] /\ _get_source_command fish_system = inr ".".
Proof. split; vm_compute; reflexivity. Qed.

(** [pip] runs the interpreter of the environment, [bin/python] under its
    path ([Scripts/python.exe] on Windows), with "-m pip --isolated" before
    its arguments; it returns the finished process when the return code is
    0, and raises [CSToolsActivatorError] with the return code and the
    output otherwise. *)
Theorem pip_command_line (sys : System) (path : Path) (args : list string) :
  let command :=
    str_of_path sys (path ++ [if WINDOWS sys then "Scripts" else "bin";
                              if WINDOWS sys then "python.exe" else "python"])
    :: "-m" :: "pip" :: "--isolated" :: args in
  pip sys path args
  = (if Z.eqb (fst (sp_run sys command)) 0 then inr (sp_run sys command)
     else inl (CSToolsActivatorError (fst (sp_run sys command)) (snd (sp_run sys command)))).
Proof.
  intros command. subst command. unfold pip, python, run, exe, bin_dir, joinpath.
  rewrite <- app_assoc. cbn [app]. by destruct (Z.eqb _ 0).
Qed.

(** A [with _cd(to)] statement leaves the process in the directory that
    was current when the [_cd] was made, wherever the process was when the
    statement was entered and wherever the block went, and passes the error
    of the block on; both directories have to exist. *)
Theorem cd_returns_where_made (E : Type) (is_directory : string -> bool)
    (expanduser : string -> string) (to_ made_in entered_in : string)
    (body : string -> string * option E)
    (Hto : is_directory (expanduser to_) = true)
    (Hfrom : is_directory made_in = true) :
  with_cd E is_directory (new_cd expanduser to_ made_in) body entered_in
  = (made_in, option_map BodyError (snd (body (expanduser to_)))).
Proof.
  unfold with_cd, chdir, new_cd. cbn [to from_]. rewrite Hto.
  destruct (body (expanduser to_)) as [cwd2 exc]. rewrite Hfrom. by destruct exc.
Qed.

Lemma cd_returns_where_made_witness :
  with_cd string (fun _ => true) (new_cd (fun s => s) "vendor" "scripts")
    (fun _ => ("vendor/cs_tools", Some "git failed")) "elsewhere"
  = ("scripts", Some (BodyError "git failed")).
Proof.
  exact (cd_returns_where_made string (fun _ => true) (fun s => s) "vendor" "scripts"
           "elsewhere" (fun _ => ("vendor/cs_tools", Some "git failed")) eq_refl eq_refl).
Defined.

(** When the target does not exist the block is not run and the process
    stays where it was. *)
Theorem cd_missing_target (E : Type) (is_directory : string -> bool) (c : _cd)
    (body : string -> string * option E) (cwd : string)
    (Hmissing : is_directory (to c) = false) :
  with_cd E is_directory c body cwd = (cwd, Some (FileNotFoundError (to c))).
Proof. unfold with_cd, chdir. by rewrite Hmissing. Qed.

Lemma cd_missing_target_witness :
  with_cd string (fun d => String.eqb d "scripts") {| to := "vendor"; from_ := "scripts" |}
    (fun _ => ("vendor", None)) "scripts"
  = ("scripts", Some (FileNotFoundError "vendor")).
Proof.
  exact (cd_missing_target string (fun d => String.eqb d "scripts")
           {| to := "vendor"; from_ := "scripts" |} (fun _ => ("vendor", None)) "scripts"
           eq_refl).
Defined.

End SystemFacts.


(** ** The run of [all], page by page *)

Module RunFacts.
Import Metadata Fixtures Notions.

Lemma enrich_built (t : string) (track track' : gmap pyval pyval) (ext ext' : list dict)
    (d : dict) :
  enrich t (track, ext) d = Return (track', ext') ->
  exists c, ext' = ext ++ [built (t, d, c)].
Proof.
  unfold enrich, getitem.
  destruct (d !! "name"); simpl; [|discriminate].
  destruct (d !! "id"); simpl; [|discriminate].
  destruct (String.eqb t "LOGICAL_COLUMN"); simpl.
  - destruct (d !! "owner"); simpl; [|discriminate].
    intros [= <- <-]. eauto.
  - intros [= <- <-]. eauto.
Qed.

Lemma for_each_enrich_built (t : string) (ds : list dict) :
  forall (track track' : gmap pyval pyval) (ext ext' : list dict),
    for_each (enrich t) ds (track, ext) = Return (track', ext') ->
    exists page, ext' = ext ++ page
                 /\ Forall2 (fun rec d => exists c, rec = built (t, d, c)) page ds.
Proof.
  induction ds as [|d ds IH]; intros track track' ext ext' H; cbn [for_each] in H.
  - inversion H; subst. exists []. rewrite app_nil_r. split; [reflexivity|constructor].
  - destruct (enrich t (track, ext) d) as [[track1 ext1]|e] eqn:E;
      cbn [Py.bind] in H; [|discriminate].
    apply enrich_built in E as (c & ->).
    apply IH in H as (page & -> & Hpage).
    exists (built (t, d, c) :: page). rewrite <- app_assoc. split; [reflexivity|].
    constructor; eauto.
Qed.

Section pages.
Variable ts : ThoughtSpot.
Variable tags : option (list string).
Variable category_ : MetadataCategory.
Variable exclude : bool.
Variable chunksize : Z.

(** The collection is made of the pages of the requests sent, each less
    what the exclusion drops of it. *)
Let pages_inv (st : run) : Prop :=
  exists pages : list (list dict),
    Forall2 (page_of ts) pages (log st)
    /\ content st
       = concat (map (fun page => if exclude
                                  then filter (fun r => ~ system_authored r) page
                                  else page) pages).

Lemma page_body_pages (type_ : string) (o o' : nat) (st st' : run) (last : bool) :
  pages_inv st ->
  page_body ts tags category_ exclude chunksize type_ o st = Return (o', st', last) ->
  pages_inv st'.
Proof.
  intros (pages & Hpages & Hcontent). unfold page_body.
  destruct (for_each _ _ _) as [[track' to_extend]|e] eqn:E; simpl; [|discriminate].
  apply for_each_enrich_built in E as (page & -> & Hpage). rewrite app_nil_l.
  destruct (filter_page _ _) as [to_extend'|e] eqn:F; simpl; [|discriminate].
  apply AggregationFacts.filter_page_kept in F. subst to_extend'.
  intros [= <- <- <-]. exists (pages ++ [page]). simpl. split.
  - apply Forall2_app; [exact Hpages|]. constructor; [|constructor].
    exists (list_request tags category_ chunksize type_ o), type_. auto.
  - rewrite map_app, concat_app, Hcontent. simpl. by rewrite app_nil_r.
Qed.

Lemma page_loop_pages (fuel : nat) (type_ : string) :
  forall (o : nat) (st st' : run),
    pages_inv st ->
    page_loop ts tags category_ exclude chunksize fuel type_ o st = Some (Return st') ->
    pages_inv st'.
Proof.
  induction fuel as [|fuel IH]; intros o st st' Hinv H; simpl in H; [discriminate|].
  destruct (page_body _ _ _ _ _ _ _ _) as [[[o1 st1] last]|e] eqn:E; [|discriminate].
  apply page_body_pages in E; [|exact Hinv].
  destruct last; [by inversion H; subst|]. by eapply IH.
Qed.

Lemma types_loop_pages (fuel : nat) (types_ : list string) :
  forall (st st' : run),
    pages_inv st ->
    types_loop ts tags category_ exclude chunksize fuel types_ st = Some (Return st') ->
    pages_inv st'.
Proof.
  induction types_ as [|t types_ IH]; intros st st' Hinv H; simpl in H.
  - by inversion H; subst.
  - destruct (page_loop _ _ _ _ _ _ _ _ _) as [[st1|e]|] eqn:E; try discriminate.
    apply page_loop_pages in E; [|exact Hinv]. by eapply IH.
Qed.

Lemma pages_inv_empty : pages_inv empty_run.
Proof. exists []. split; [constructor|reflexivity]. Qed.

(** *** When the loops finish *)

Let page_at (type_ : string) (o : nat) : ListPage :=
  metadata_list ts (list_request tags category_ chunksize type_ o).

Lemma for_each_enrich_returns (t : string) (ds : list dict) :
  Forall well_formed ds ->
  forall (track : gmap pyval pyval) (ext : list dict),
    exists track' page,
      for_each (enrich t) ds (track, ext) = Return (track', ext ++ page)
      /\ length page = length ds
      /\ Forall (fun r => is_Some (r !! "authorName")) page.
Proof.
  induction 1 as [|d ds (Hname & Hid & Howner & [a Ha]) _ IH]; intros track ext.
  - exists track, []. rewrite app_nil_r. split; [reflexivity|]. split; [reflexivity|constructor].
  - destruct (AggregationFacts.enrich_returns t track ext d Hname Hid Howner)
      as (track1 & c & E).
    destruct (IH track1 (ext ++ [built (t, d, c)])) as (track' & page & Hrun & Hlen & Hauthor).
    exists track', (built (t, d, c) :: page). cbn [for_each]. rewrite E. cbn [Py.bind].
    rewrite Hrun, <- app_assoc. split; [reflexivity|]. split; [simpl; by rewrite Hlen|].
    constructor; [|exact Hauthor].
    exists a. by apply AggregationFacts.built_lookup_header.
Qed.

Lemma page_body_returns (type_ : string) (o : nat) (st : run) :
  Forall well_formed (headers (page_at type_ o)) ->
  exists st',
    page_body ts tags category_ exclude chunksize type_ o st
    = Return (o + length (headers (page_at type_ o)), st', isLastBatch (page_at type_ o))
    /\ length (log st') = S (length (log st)).
Proof.
  intros Hwf. unfold page_body. fold (page_at type_ o).
  destruct (for_each_enrich_returns type_ _ Hwf (track_guids st) [])
    as (track' & page & -> & Hlen & Hauthor).
  cbn [Py.bind app]. rewrite Hlen.
  assert (exists kept_, filter_page exclude page = Return kept_) as [kept_ ->].
  { destruct exclude; simpl; [by apply AggregationFacts.exclude_system_returns|eauto]. }
  cbn [Py.bind]. eexists. split; [reflexivity|]. simpl. rewrite length_app. simpl. lia.
Qed.

Lemma page_loop_returns (type_ : string) (n : nat) :
  forall (o : nat) (st : run),
    listing_ends (page_at type_) o n ->
    exists st',
      page_loop ts tags category_ exclude chunksize n type_ o st = Some (Return st')
      /\ length (log st') <= length (log st) + n.
Proof.
  induction n as [|n IH]; intros o st H; [destruct H|].
  destruct H as [Hwf Hnext]. cbn [page_loop].
  destruct (page_body_returns type_ o st Hwf) as (st1 & -> & Hlog).
  destruct (isLastBatch (page_at type_ o)) eqn:Elast.
  - exists st1. split; [reflexivity|lia].
  - destruct Hnext as [?|Hnext]; [discriminate|].
    destruct (IH _ st1 Hnext) as (st' & -> & Hlen). exists st'. split; [reflexivity|lia].
Qed.

Lemma types_loop_returns (n : nat) (types_ : list string) :
  (forall t, In t types_ -> listing_ends (page_at t) 0 n) ->
  forall st : run,
    exists st',
      types_loop ts tags category_ exclude chunksize n types_ st = Some (Return st')
      /\ length (log st') <= length (log st) + n * length types_.
Proof.
  induction types_ as [|t types_ IH]; intros Hends st; cbn [types_loop].
  - exists st. split; [reflexivity|]. simpl. lia.
  - destruct (page_loop_returns t n 0 st (Hends t (or_introl eq_refl))) as (st1 & -> & Hlen1).
    destruct (IH (fun t' Ht' => Hends t' (or_intror Ht')) st1) as (st' & -> & Hlen).
    exists st'. split; [reflexivity|]. simpl. lia.
Qed.
End pages.

(** C5.  In a run of the loops of [all], the collection is made page by
    page, in the order of the requests: from the response to each request
    the loop builds one record per header, and what it adds to the
    collection is, with the exclusion of system content, exactly the records
    of that page whose author is neither "system" nor "tsadmin", in their
    order, and, without the exclusion, every record of the page. *)
Theorem exclusion_drops_system_records (fuel : nat) (ts : ThoughtSpot) (include_columns : bool)
    (tags : option (string + list string)) (category_ : MetadataCategory)
    (exclude : bool) (chunksize : Z) (st : run)
    (Hrun : all_drain fuel ts include_columns tags category_ exclude chunksize
            = Some (Return st)) :
  exists pages : list (list dict),
    Forall2 (fun page r =>
               exists req t,
                 r = MetadataList req
                 /\ type req = Some t
                 /\ Forall2 (fun rec d =>
                               exists c,
                                 rec = merge_over {[ "type" := PStr t; "context" := c ]} d)
                      page (headers (metadata_list ts req)))
      pages (log st)
    /\ content st
       = concat (map (fun page =>
                        if exclude
                        then filter (fun r => r !! "authorName" <> Some (PStr "system")
                                              /\ r !! "authorName" <> Some (PStr "tsadmin"))
                               page
                        else page) pages).
Proof.
  apply types_loop_pages in Hrun; [|apply pages_inv_empty].
  destruct Hrun as (pages & Hpages & Hcontent). exists pages. split; [exact Hpages|].
  rewrite Hcontent. f_equal. apply map_ext. intros page. destruct exclude; [|reflexivity].
  apply list_filter_iff. intros r. unfold system_authored. tauto.
Qed.

Lemma exclusion_drops_system_records_witness :
  match all_drain 1 sales_server true None category_all true 500 with
  | Some (Return st) =>
      content st
      = [ merge_over {[ "type" := PStr "LOGICAL_TABLE"; "context" := PNone ]} sales;
          merge_over {[ "type" := PStr "LOGICAL_COLUMN"; "context" := PStr "Sales" ]} amount;
          merge_over {[ "type" := PStr "LOGICAL_COLUMN"; "context" := PNone ]} orphan ]
      /\ exists pages : list (list dict),
           length pages = 4
           /\ content st
              = concat (map (fun page =>
                               filter (fun r => r !! "authorName" <> Some (PStr "system")
                                                /\ r !! "authorName" <> Some (PStr "tsadmin"))
                                 page) pages)
  | _ => False
  end.
Proof.
  destruct (all_drain 1 sales_server true None category_all true 500) as [[st|e]|] eqn:E;
    [|vm_compute in E; discriminate|vm_compute in E; discriminate].
  destruct (exclusion_drops_system_records 1 sales_server true None category_all true 500
              st E) as (pages & Hpages & Hcontent).
  split.
  - vm_compute in E. injection E as <-. vm_compute. reflexivity.
  - exists pages. split; [|exact Hcontent].
    apply Forall2_length in Hpages. rewrite Hpages.
    vm_compute in E. injection E as <-. reflexivity.
Defined.

(** When every listing ends, [all] finishes.  If, for each type [all]
    lists, the pages met along the offsets 0, then each time the offset
    before plus the number of records of the page before, hold headers with
    a name, an id, an owner and an author, and one of the first [n] of them
    is flagged as the last batch, then the loops come to their end after at
    most [n] requests for each type, and [all] returns the collection, or
    raises [ContentDoesNotExist] when the collection is empty. *)
Theorem all_finishes_when_listings_end (n : nat) (ts : ThoughtSpot) (include_columns : bool)
    (tags : option (string + list string)) (category_ : MetadataCategory)
    (exclude : bool) (chunksize : Z)
    (Hends : forall t, In t (all_types include_columns) ->
               listing_ends
                 (fun o => metadata_list ts
                             (list_request (normalise_tags tags) category_ chunksize t o))
                 0 n) :
  exists st : run,
    all_drain n ts include_columns tags category_ exclude chunksize = Some (Return st)
    /\ length (log st) <= n * length (all_types include_columns)
    /\ (all n ts include_columns tags category_ exclude chunksize
        = Some (Return (log st, content st))
        \/ exists reason,
             all n ts include_columns tags category_ exclude chunksize
             = Some (Raise (ContentDoesNotExist (ErrRecords []) None (Some reason)))).
Proof.
  destruct (types_loop_returns ts (normalise_tags tags) category_ exclude chunksize n
              (all_types include_columns) Hends empty_run) as (st & Hrun & Hlen).
  exists st. unfold all, all_drain. rewrite Hrun. split; [reflexivity|].
  split; [exact Hlen|].
  destruct (content st) eqn:E; [right; eauto|left; reflexivity].
Qed.

Lemma all_finishes_when_listings_end_witness :
  exists st : run,
    all_drain 2 paging_server false None category_all false 500 = Some (Return st)
    /\ length (log st) <= 2 * 3.
Proof.
  destruct (all_finishes_when_listings_end 2 paging_server false None category_all false 500)
    as (st & Hrun & Hlen & _).
  - intros t _. cbn [listing_ends]. split; [|right; split; [|left; reflexivity]].
    + repeat constructor; vm_compute; eauto.
    + repeat constructor; vm_compute; eauto.
  - exists st. split; [exact Hrun|exact Hlen].
Defined.

End RunFacts.
